(** * tap-intacct: the protocol adapter of [tap_intacct/streams.py]

    A shallow embedding of [IntacctStream]: the response parser
    ([parse_response]), the date normaliser ([_parse_to_datetime],
    [post_process]) and the request builder ([prepare_request_payload]),
    followed by the properties the specification states about them.

    Python exceptions are values of [exn]; a computation that may raise
    has type [result A]; the parser, which also writes to the stream's
    logger, runs in the small monad [M]. *)

From Stdlib Require Import String Ascii List ZArith Lia Bool Arith DecimalString.
Import ListNotations.
Local Open Scope string_scope.
Set Warnings "-register-all".

(** ** Decoded documents

    [json.loads(json.dumps(xmltodict.parse(text)))] only ever produces
    [None], strings, lists and dictionaries (xmltodict keeps every leaf as
    text).  Dictionaries keep insertion order, hence association lists. *)

Inductive json : Type :=
| JNull
| JStr (s : string)
| JList (items : list json)
| JDict (entries : list (string * json)).

Fixpoint dict_get {A : Type} (k : string) (d : list (string * A)) : option A :=
  match d with
  | [] => None
  | (k', v) :: rest => if String.eqb k' k then Some v else dict_get k rest
  end.

(** [d[k] = v] on an existing key: the first (in a real dict, the only)
    binding of [k] is replaced in place, the order of keys is kept. *)
Fixpoint dict_set {A : Type} (k : string) (v : A) (d : list (string * A))
  : list (string * A) :=
  match d with
  | [] => []
  | (k', v') :: rest =>
      if String.eqb k' k then (k', v) :: rest else (k', v') :: dict_set k v rest
  end.

(** [v == "literal"] for a decoded value [v]. *)
Definition str_eq (v : json) (lit : string) : bool :=
  match v with
  | JStr s => String.eqb s lit
  | _ => false
  end.

(** Python truthiness of a decoded value. *)
Definition truthy (v : json) : bool :=
  match v with
  | JNull => false
  | JStr s => negb (String.eqb s "")
  | JList l => match l with [] => false | _ => true end
  | JDict d => match d with [] => false | _ => true end
  end.

(** [needle in hay] for two strings: substring search. *)
Fixpoint is_substring (needle hay : string) : bool :=
  String.prefix needle hay
  || match hay with
     | EmptyString => false
     | String _ rest => is_substring needle rest
     end.

(** ** Exceptions *)

(** The classes imported from [tap_intacct.exceptions]. *)
Inductive intacct_exception : Type :=
| AuthFailure
| BadGatewayError
| ExpiredTokenError
| InternalServerError
| InvalidRequest
| InvalidTokenError
| InvalidXmlResponse
| NoPrivilegeError
| NotFoundItemError
| OfflineServiceError
| PleaseTryAgainLaterError
| RateLimitError
| SageIntacctSDKError
| WrongParamsError.

(** One positional argument of a raised exception (or the text of a log
    line).  [Interp p v] is the f-string [f"p{v}"]: the literal text [p]
    followed by [str(v)]; the interpolated object is kept as a tree. *)
Inductive message : Type :=
| Text (s : string)
| Obj (v : json)
| Interp (prefix : string) (v : json).

Inductive exn : Type :=
| Intacct (cls : intacct_exception) (args : list message)
| KeyError (key : string)
| TypeError
| AttributeError (attr : string)
| UnboundLocalError (name : string)
| ValueError (msg : string)
| StopIteration
| PlainException (msg : string).

Inductive result (A : Type) : Type :=
| Return (a : A)
| Raise (e : exn).
Arguments Return {A} a.
Arguments Raise {A} e.

Definition rbind {A B : Type} (r : result A) (k : A -> result B) : result B :=
  match r with
  | Return a => k a
  | Raise e => Raise e
  end.

(** [v[k]] with a string key. *)
Definition subscript (v : json) (k : string) : result json :=
  match v with
  | JDict d => match dict_get k d with
               | Some x => Return x
               | None => Raise (KeyError k)
               end
  | _ => Raise TypeError
  end.

(** [v.get(k, default)]; only dictionaries have a [get] attribute. *)
Definition get_default (v : json) (k : string) (default : json) : result json :=
  match v with
  | JDict d => match dict_get k d with
               | Some x => Return x
               | None => Return default
               end
  | _ => Raise (AttributeError "get")
  end.

(** [lit in v], reached only for a truthy [v]. *)
Definition py_in (lit : string) (v : json) : result bool :=
  match v with
  | JStr s => Return (is_substring lit s)
  | JList l => Return (existsb (fun x => str_eq x lit) l)
  | JDict d => Return (match dict_get lit d with Some _ => true | None => false end)
  | JNull => Raise TypeError
  end.

(** ** Logging and the parser monad *)

Inductive level : Type := ERROR.

Definition log_record : Type := (level * message)%type.

(** A computation that records events of type [E] and may raise. *)
Definition Eff (E A : Type) : Type := (list E * result A)%type.

Definition M (A : Type) : Type := Eff log_record A.

Definition ret {E A : Type} (a : A) : Eff E A := ([], Return a).
Definition raise {E A : Type} (e : exn) : Eff E A := ([], Raise e).
Definition lift {E A : Type} (r : result A) : Eff E A := ([], r).
Definition emit {E : Type} (ev : E) : Eff E unit := ([ev], Return tt).
Definition logger_error (m : message) : M unit := emit (ERROR, m).

Definition bind {E A B : Type} (m : Eff E A) (k : A -> Eff E B) : Eff E B :=
  match m with
  | (l, Return a) => let (l', r) := k a in ((l ++ l')%list, r)
  | (l, Raise e) => (l, Raise e)
  end.

Declare Scope py_scope.
Delimit Scope py_scope with py.
Notation "x <- m ;; k" := (bind m (fun x => k))
  (at level 61, m at next level, right associativity) : py_scope.
Notation "m ;;; k" := (bind m (fun _ => k))
  (at level 61, right associativity) : py_scope.
Notation "v .[ k ]" := (lift (subscript v k)) (at level 1, left associativity,
  format "v .[ k ]") : py_scope.

(** ** The stream object *)

Record response : Type := { status_code : Z; text : string }.

Record stream : Type := {
  name : string;
  intacct_obj_name : string;
  (* self.schema["properties"]: field name -> JSON-schema of the field *)
  properties : list (string * list (string * json));
  (* self.config *)
  config : list (string * string);
  session_id : string
}.

Definition show_status (n : Z) : string := NilZero.string_of_int (Z.to_int n).

Definition status_line (r : response) : string :=
  "Response status code: " ++ show_status (status_code r)
    ++ ", response: " ++ text r.

Definition PHRASE : string := "Please Try Again Later".

Section Parser.

(** [xmltodict.parse] followed by the JSON round trip; [None] when either
    raises (the handler is a bare [except:]). *)
Variable xml_decode : string -> option json.

(** [self.sage_client.decode_support_id], supplied by the session
    collaborator. *)
Variable decode_support_id : json -> result json.

Variable self : stream.

Local Open Scope py_scope.

(** Lines 225-239: the handler of the bare [except:]. *)
Definition decode_failure (r : response) : exn :=
  if (status_code r =? 502)%Z then Intacct BadGatewayError [Text (status_line r)]
  else if (status_code r =? 503)%Z then Intacct OfflineServiceError [Text (status_line r)]
  else if (status_code r =? 429)%Z then Intacct RateLimitError [Text (status_line r)]
  else Intacct InvalidXmlResponse [Text (status_line r)].

(** Lines 266-272: the conditional expression bound to [desc_2]. *)
Definition description2 (error : json) : result json :=
  match error with
  | JDict _ => get_default error "description2" JNull
  | JList (first :: _) => get_default first "description2" JNull
  | _ => Return (JStr "")
  end.

(** Lines 262-272: what the parser does once the result status is not
    ["success"]: one log line, then the extraction of [desc_2]. *)
Definition failure_diagnostics (api_response : json) : M json :=
  logger_error (Interp "Intacct error response: " api_response) ;;;
  res <- lift (get_default api_response "result" (JDict [])) ;;
  em <- lift (get_default res "errormessage" (JDict [])) ;;
  error <- lift (get_default em "error" (JDict [])) ;;
  lift (description2 error).

(** Lines 241-283, the body of [if response.status_code == 200:].
    [Some v] stands for [return v]; [None] for falling out of the block. *)
Definition walk_envelope (parsed_response : json) : M (option json) :=
  r <- parsed_response.["response"] ;;
  c <- r.["control"] ;;
  st <- c.["status"] ;;
  api_response <-
    (if str_eq st "success"
     then (r1 <- parsed_response.["response"] ;;
           op <- r1.["operation"] ;;
           ret (Some op))
     else ret None) ;;
  r2 <- parsed_response.["response"] ;;
  c2 <- r2.["control"] ;;
  st2 <- c2.["status"] ;;
  if str_eq st2 "failure"
  then
    r3 <- parsed_response.["response"] ;;
    em <- r3.["errormessage"] ;;
    exception_msg <- lift (decode_support_id em) ;;
    raise (Intacct WrongParamsError
             [Text "Some of the parameters are wrong"; Obj exception_msg])
  else
    api_response <-
      match api_response with
      | Some op => ret op
      | None => raise (UnboundLocalError "api_response")
      end ;;
    auth <- api_response.["authentication"] ;;
    ast <- auth.["status"] ;;
    if str_eq ast "failure"
    then
      em <- api_response.["errormessage"] ;;
      raise (Intacct InvalidTokenError
               [Text "Invalid token / Incorrect credentials"; Obj em])
    else
      res <- api_response.["result"] ;;
      rst <- res.["status"] ;;
      if str_eq rst "success"
      then
        res1 <- api_response.["result"] ;;
        data <- res1.["data"] ;;
        records <- data.[intacct_obj_name self] ;;
        ret (Some records)
      else
        desc_2 <- failure_diagnostics api_response ;;
        ret None.

(** Lines 285-288: [exception_msg] and [correction]. *)
Definition outer_error (parsed_response : json) : result (json * json) :=
  rbind (get_default parsed_response "response" (JDict [])) (fun r =>
  rbind (get_default r "errormessage" (JDict [])) (fun em =>
  rbind (get_default em "error" (JDict [])) (fun exception_msg =>
  rbind (get_default exception_msg "correction" (JDict [])) (fun correction =>
  Return (exception_msg, correction))))).

(** Line 322: [correction and "Please Try Again Later" in correction]. *)
Definition correction_asks_retry (correction : json) : result bool :=
  if truthy correction then py_in PHRASE correction else Return false.

(** Lines 290-325: every path ends in a [raise]. *)
Definition raise_for_status (status : Z) (parsed_response exception_msg correction : json)
  : exn :=
  if (status =? 400)%Z then
    match get_default exception_msg "errorno" JNull with
    | Raise e => e
    | Return errorno =>
        if str_eq errorno "GW-0011"
        then Intacct AuthFailure
               [Interp "One or more authentication values are incorrect. Response:"
                       parsed_response]
        else Intacct InvalidRequest [Text "Invalid request"; Obj parsed_response]
    end
  else if (status =? 401)%Z then
    Intacct InvalidTokenError
      [Interp "Invalid token / Incorrect credentials. Response: " parsed_response]
  else if (status =? 403)%Z then
    Intacct NoPrivilegeError
      [Interp "Forbidden, the user has insufficient privilege. Response: " parsed_response]
  else if (status =? 404)%Z then
    Intacct NotFoundItemError
      [Interp "Not found item with ID. Response: " parsed_response]
  else if (status =? 498)%Z then
    Intacct ExpiredTokenError
      [Interp "Expired token, try to refresh it. Response: " parsed_response]
  else if (status =? 500)%Z then
    Intacct InternalServerError
      [Interp "Internal server error. Response: " parsed_response]
  else
    match correction_asks_retry correction with
    | Raise e => e
    | Return true => Intacct PleaseTryAgainLaterError [Obj parsed_response]
    | Return false => Intacct SageIntacctSDKError [Interp "Error: " parsed_response]
    end.

(** Lines 285-325. *)
Definition classify (status : Z) (parsed_response : json) : exn :=
  match outer_error parsed_response with
  | Raise e => e
  | Return (exception_msg, correction) =>
      raise_for_status status parsed_response exception_msg correction
  end.

Definition parse_response (r : response) : M json :=
  match xml_decode (text r) with
  | None => raise (decode_failure r)
  | Some parsed_response =>
      returned <-
        (if (status_code r =? 200)%Z then walk_envelope parsed_response
         else ret None) ;;
      match returned with
      | Some records => ret records
      | None => raise (classify (status_code r) parsed_response)
      end
  end.

End Parser.

Arguments failure_diagnostics api_response : simpl never.

(** ** The specification's closed taxonomy (section 7) *)

Module Taxonomy.

Inductive kind : Type :=
| BadGateway | OfflineService | RateLimit | InvalidXmlResponse
| WrongParameters | InvalidToken | AuthFailure | InvalidRequest
| NoPrivilege | NotFound | ExpiredToken | InternalServerError
| PleaseTryAgainLater | UnsupportedStream | InvalidDateFormat
| GenericProtocolError.

End Taxonomy.

Definition kind_of_class (cls : intacct_exception) : Taxonomy.kind :=
  match cls with
  | AuthFailure => Taxonomy.AuthFailure
  | BadGatewayError => Taxonomy.BadGateway
  | ExpiredTokenError => Taxonomy.ExpiredToken
  | InternalServerError => Taxonomy.InternalServerError
  | InvalidRequest => Taxonomy.InvalidRequest
  | InvalidTokenError => Taxonomy.InvalidToken
  | InvalidXmlResponse => Taxonomy.InvalidXmlResponse
  | NoPrivilegeError => Taxonomy.NoPrivilege
  | NotFoundItemError => Taxonomy.NotFound
  | OfflineServiceError => Taxonomy.OfflineService
  | PleaseTryAgainLaterError => Taxonomy.PleaseTryAgainLater
  | RateLimitError => Taxonomy.RateLimit
  | SageIntacctSDKError => Taxonomy.GenericProtocolError
  | WrongParamsError => Taxonomy.WrongParameters
  end.

(** The kind an exception raised in [streams.py] stands for.  The
    interpreter's own lookup errors have none.  The only [Exception] and
    the only [ValueError] the module raises itself are the
    unsupported-stream and the invalid-date errors. *)
Definition kind_of (e : exn) : option Taxonomy.kind :=
  match e with
  | Intacct cls _ => Some (kind_of_class cls)
  | PlainException _ => Some Taxonomy.UnsupportedStream
  | ValueError _ => Some Taxonomy.InvalidDateFormat
  | KeyError _ | TypeError | AttributeError _ | UnboundLocalError _
  | StopIteration => None
  end.


(** Strict navigation: every step must find a dictionary holding the key. *)
Fixpoint at_path (path : list string) (v : json) : option json :=
  match path with
  | [] => Some v
  | k :: rest =>
      match v with
      | JDict d => match dict_get k d with
                   | Some x => at_path rest x
                   | None => None
                   end
      | _ => None
      end
  end.

(** The tree an exception carries for diagnosis. *)
Definition payload_of (e : exn) : list json :=
  match e with
  | Intacct _ args =>
      flat_map (fun a => match a with
                         | Text _ => []
                         | Obj v => [v]
                         | Interp _ v => [v]
                         end) args
  | _ => []
  end.

(** ** Dates

    A [datetime] object: calendar and clock fields and, for an aware
    object, the offset of its time zone from UTC in seconds; a naive
    object has no [tzinfo].  Two naive objects are equal when their
    fields are; an aware and a naive object are never equal, in Python
    as here. *)

Local Open Scope nat_scope.

Record datetime : Type := {
  year : nat; month : nat; day : nat;
  hour : nat; minute : nat; second : nat;
  microsecond : nat;
  tzinfo : option Z
}.

Definition is_leap (y : nat) : bool :=
  (y mod 4 =? 0) && (negb (y mod 100 =? 0) || (y mod 400 =? 0)).

Definition days_in_month (y m : nat) : nat :=
  match m with
  | 2 => if is_leap y then 29 else 28
  | 4 | 6 | 9 | 11 => 30
  | _ => 31
  end.

(** The range checks of the [datetime] constructor. *)
Definition valid_datetime (dt : datetime) : bool :=
  (1 <=? year dt) && (Z.of_nat (year dt) <=? 9999)%Z
  && (1 <=? month dt) && (month dt <=? 12)
  && (1 <=? day dt) && (day dt <=? days_in_month (year dt) (month dt))
  && (hour dt <? 24) && (minute dt <? 60) && (second dt <? 60)
  && (Z.of_nat (microsecond dt) <? 1000000)%Z
  && match tzinfo dt with
     | None => true
     | Some offset => ((-86400 <? offset) && (offset <? 86400))%Z
     end.

(** [dt.replace(microsecond=0)]. *)
Definition truncate_to_second (dt : datetime) : datetime :=
  {| year := year dt; month := month dt; day := day dt;
     hour := hour dt; minute := minute dt; second := second dt;
     microsecond := 0; tzinfo := tzinfo dt |}.

(** [dt.replace(tzinfo=None)]. *)
Definition without_tzinfo (dt : datetime) : datetime :=
  {| year := year dt; month := month dt; day := day dt;
     hour := hour dt; minute := minute dt; second := second dt;
     microsecond := microsecond dt; tzinfo := None |}.

Inductive field : Type := Fm | Fd | FY | FH | FM | FS.

Definition field_of_directive (c : ascii) : option field :=
  if Ascii.eqb c "m" then Some Fm
  else if Ascii.eqb c "d" then Some Fd
  else if Ascii.eqb c "Y" then Some FY
  else if Ascii.eqb c "H" then Some FH
  else if Ascii.eqb c "M" then Some FM
  else if Ascii.eqb c "S" then Some FS
  else None.

Definition digit_char (k : nat) : ascii := ascii_of_nat (48 + k).

Definition pad2 (n : nat) : string :=
  String (digit_char (n / 10)) (String (digit_char (n mod 10)) "").

Definition pad4 (n : nat) : string :=
  String (digit_char (n / 1000))
    (String (digit_char ((n / 100) mod 10))
       (String (digit_char ((n / 10) mod 10))
          (String (digit_char (n mod 10)) ""))).

(** The decimal digits of [n], without padding. *)
Fixpoint decimal_aux (fuel n : nat) (acc : string) : string :=
  match fuel with
  | 0 => acc
  | S fuel' =>
      let acc' := String (digit_char (n mod 10)) acc in
      if n / 10 =? 0 then acc' else decimal_aux fuel' (n / 10) acc'
  end.

Definition decimal (n : nat) : string := decimal_aux (S n) n "".

Definition render (f : field) (dt : datetime) : string :=
  match f with
  | Fm => pad2 (month dt)
  | Fd => pad2 (day dt)
  | FY => decimal (year dt)
  | FH => pad2 (hour dt)
  | FM => pad2 (minute dt)
  | FS => pad2 (second dt)
  end.

(** [dt.strftime(format)] for the six numeric directives.  Month, day,
    hour, minute and second are written on two digits; [%Y] is the year
    as the C library prints it, in decimal without padding, so a year
    below 1000 takes fewer than four digits.  No directive of the two
    formats reads [tzinfo]. *)
Fixpoint strftime (dt : datetime) (format : string) : string :=
  match format with
  | EmptyString => ""
  | String c rest =>
      if Ascii.eqb c "%" then
        match rest with
        | String d rest' =>
            match field_of_directive d with
            | Some f => render f dt ++ strftime dt rest'
            | None => String c (String d (strftime dt rest'))
            end
        | EmptyString => "%"
        end
      else String c (strftime dt rest)
  end.

(** [strptime] compiles the format to a regular expression: a directive
    becomes a capture group, a run of white space becomes [\s+], any other
    character stands for itself. *)
Inductive item : Type :=
| Capture (f : field)
| Char (c : ascii)
| Blanks.

(** White space as [\s] sees it among the code points below 256. *)
Definition is_space (c : ascii) : bool :=
  let n := nat_of_ascii c in
  ((9 <=? n) && (n <=? 13)) || ((28 <=? n) && (n <=? 32)) || (n =? 133) || (n =? 160).

Fixpoint compile (in_blanks : bool) (format : string) : option (list item) :=
  match format with
  | EmptyString => Some []
  | String c rest =>
      if Ascii.eqb c "%" then
        match rest with
        | String d rest' =>
            match field_of_directive d, compile false rest' with
            | Some f, Some items => Some (Capture f :: items)
            | _, _ => None
            end
        | EmptyString => None
        end
      else if is_space c then
        match compile true rest with
        | Some items => Some (if in_blanks then items else Blanks :: items)
        | None => None
        end
      else
        match compile false rest with
        | Some items => Some (Char c :: items)
        | None => None
        end
  end.

Definition in_class (lo hi c : ascii) : bool :=
  (nat_of_ascii lo <=? nat_of_ascii c) && (nat_of_ascii c <=? nat_of_ascii hi).

Definition digit : ascii * ascii := ("0"%char, "9"%char).
Definition one (c : ascii) : ascii * ascii := (c, c).
Definition range (lo hi : ascii) : ascii * ascii := (lo, hi).

(** The alternatives of each capture group, in the order the regular
    expression lists them; an alternative is a sequence of character
    classes. *)
Definition alternatives (f : field) : list (list (ascii * ascii)) :=
  match f with
  | Fm => [[one "1"; range "0" "2"]; [one "0"; range "1" "9"]; [range "1" "9"]]
  | Fd => [[one "3"; range "0" "1"]; [range "1" "2"; digit]; [one "0"; range "1" "9"];
           [range "1" "9"]; [one " "; range "1" "9"]]
  | FY => [[digit; digit; digit; digit]]
  | FH => [[one "2"; range "0" "3"]; [range "0" "1"; digit]; [digit]]
  | FM => [[range "0" "5"; digit]; [digit]]
  | FS => [[one "6"; range "0" "1"]; [range "0" "5"; digit]; [digit]]
  end%char.

Fixpoint match_classes (cls : list (ascii * ascii)) (s : string)
  : option (string * string) :=
  match cls with
  | [] => Some ("", s)
  | (lo, hi) :: cls' =>
      match s with
      | EmptyString => None
      | String c rest =>
          if in_class lo hi c then
            match match_classes cls' rest with
            | Some (matched, rest') => Some (String c matched, rest')
            | None => None
            end
          else None
      end
  end.

(** [int(text)] on the text of a capture group (digits, after an optional
    blank). *)
Fixpoint int_of (acc : nat) (s : string) : nat :=
  match s with
  | EmptyString => acc
  | String c rest =>
      if is_space c then int_of acc rest
      else int_of (10 * acc + (nat_of_ascii c - 48)) rest
  end.

Record captures : Type := {
  cY : nat; cm : nat; cd : nat; cH : nat; cM : nat; cS : nat
}.

(** The defaults [_strptime] starts from. *)
Definition no_captures : captures :=
  {| cY := 1900; cm := 1; cd := 1; cH := 0; cM := 0; cS := 0 |}.

Definition capture (f : field) (n : nat) (c : captures) : captures :=
  match f with
  | FY => {| cY := n; cm := cm c; cd := cd c; cH := cH c; cM := cM c; cS := cS c |}
  | Fm => {| cY := cY c; cm := n; cd := cd c; cH := cH c; cM := cM c; cS := cS c |}
  | Fd => {| cY := cY c; cm := cm c; cd := n; cH := cH c; cM := cM c; cS := cS c |}
  | FH => {| cY := cY c; cm := cm c; cd := cd c; cH := n; cM := cM c; cS := cS c |}
  | FM => {| cY := cY c; cm := cm c; cd := cd c; cH := cH c; cM := n; cS := cS c |}
  | FS => {| cY := cY c; cm := cm c; cd := cd c; cH := cH c; cM := cM c; cS := n |}
  end.

(** What is left after [\s+] has eaten some leading white space, the
    greediest choice first. *)
Fixpoint after_blanks (s : string) : list string :=
  match s with
  | EmptyString => []
  | String c rest => if is_space c then (after_blanks rest ++ [rest])%list else []
  end.

(** Every way the compiled expression matches a prefix of [s], in the
    order a backtracking matcher tries them. *)
Fixpoint run (items : list item) (s : string) (acc : captures)
  : list (captures * string) :=
  match items with
  | [] => [(acc, s)]
  | Char c :: items' =>
      match s with
      | String x rest => if Ascii.eqb x c then run items' rest acc else []
      | EmptyString => []
      end
  | Blanks :: items' => flat_map (fun rest => run items' rest acc) (after_blanks s)
  | Capture f :: items' =>
      flat_map
        (fun cls =>
           match match_classes cls s with
           | Some (matched, rest) => run items' rest (capture f (int_of 0 matched) acc)
           | None => []
           end)
        (alternatives f)
  end.

Definition datetime_of (c : captures) : option datetime :=
  let dt := {| year := cY c; month := cm c; day := cd c;
               hour := cH c; minute := cM c; second := cS c;
               microsecond := 0; tzinfo := None |} in
  if valid_datetime dt then Some dt else None.

(** [datetime.strptime(data_string, format)]; [None] is [ValueError]: the
    expression does not match, text remains after the match, or the
    fields do not make a date.  Without [%z] the object built is naive. *)
Definition strptime (data_string format : string) : option datetime :=
  match compile false format with
  | None => None
  | Some items =>
      match run items data_string no_captures with
      | (c, EmptyString) :: _ => datetime_of c
      | _ => None
      end
  end.

Definition FULL : string := "%m/%d/%Y %H:%M:%S".
Definition DATE_ONLY : string := "%m/%d/%Y".

(** Line 107. *)
Definition _format_date_for_intacct (dt : datetime) : string := strftime dt FULL.

(** A value held by a record: decoded text before normalisation, a
    [datetime] after. *)
Inductive cell : Type :=
| Raw (v : json)
| Stamp (dt : datetime).

Definition row : Type := list (string * cell).

(** Lines 327-340 on a string. *)
Definition parse_date_string (date_str : string) : result datetime :=
  match strptime date_str FULL with
  | Some dt => Return dt
  | None =>
      match strptime date_str DATE_ONLY with
      | Some dt => Return dt
      | None => Raise (ValueError ("Invalid date format: " ++ date_str))
      end
  end.

(** Lines 327-340; [strptime] rejects an argument that is not a string
    with [TypeError], which neither handler catches. *)
Definition _parse_to_datetime (date_str : cell) : result datetime :=
  match date_str with
  | Raw (JStr s) => parse_date_string s
  | _ => Raise TypeError
  end.

(** Lines 58-62. *)
Definition is_date_time (t : list (string * json)) : bool :=
  match dict_get "format" t with
  | Some v => str_eq v "date-time"
  | None => false
  end.

Definition datetime_fields (self : stream) : list string :=
  map fst (filter (fun p => is_date_time (snd p)) (properties self)).

(** Lines 356-358: the loop.  [row] is the caller's dict and is updated
    in place; the first component of the result is what that dict holds
    when the loop ends or when an exception leaves it, the second is how
    the loop ended. *)
Fixpoint normalize (fields : list string) (r : row) : row * result unit :=
  match fields with
  | [] => (r, Return tt)
  | f :: fields' =>
      match dict_get f r with
      | None => (r, Raise (KeyError f))
      | Some (Raw JNull) => normalize fields' r
      | Some v =>
          match _parse_to_datetime v with
          | Return dt => normalize fields' (dict_set f (Stamp dt) r)
          | Raise e => (r, Raise e)
          end
      end
  end.

(** Lines 342-359: the dict as the call leaves it, and the outcome; the
    value returned is that same dict. *)
Definition post_process (self : stream) (r : row) : row * result row :=
  let (left, outcome) := normalize (datetime_fields self) r in
  (left, match outcome with
         | Return _ => Return left
         | Raise e => Raise e
         end).

(** ** The request builder *)

(** Values handed to [xmltodict.unparse].  A float literal is carried by
    its [repr]. *)
Inductive pyval : Type :=
| PStr (s : string)
| PInt (n : Z)
| PBool (b : bool)
| PFloat (repr : string)
| PDatetime (dt : datetime)
| PList (items : list pyval)
| PDict (entries : list (string * pyval)).

(** What the builder reads from outside its arguments. *)
Record ambient : Type := {
  starting_timestamp : option datetime;  (* self.get_starting_timestamp(context) *)
  utc_now : datetime;                    (* datetime.now(timezone.utc) *)
  fresh_uuid : string                    (* str(uuid.uuid4()) *)
}.

Inductive effect : Type :=
| ReadStartingTimestamp
| ReadClock
| DrawUuid.

Section Builder.

(** [tap_intacct.const]. *)
Variable REP_KEYS : list (string * string).
Variable GET_BY_DATE_FIELD : string.

(** [xmltodict.unparse]. *)
Variable unparse : pyval -> string.

Variable self : stream.
Variable world : ambient.

Local Open Scope py_scope.

Definition config_item (k : string) : result string :=
  match dict_get k (config self) with
  | Some v => Return v
  | None => Raise (KeyError k)
  end.

(** Lines 163-209: [dict_body]. *)
Definition request_envelope : Eff effect pyval :=
  let rep_key :=
    match dict_get (name self) REP_KEYS with
    | Some k => k
    | None => GET_BY_DATE_FIELD
    end in
  emit ReadStartingTimestamp ;;;
  value <-
    match starting_timestamp world with
    | Some dt => ret (_format_date_for_intacct dt)
    | None => raise (AttributeError "strftime")
    end ;;
  let query_filter :=
    PDict [("greaterthanorequalto",
            PDict [("field", PStr rep_key); ("value", PStr value)])] in
  let orderby :=
    PDict [("order", PDict [("field", PStr rep_key); ("ascending", PDict [])])] in
  let data :=
    [("query",
      PDict [("object", PStr (intacct_obj_name self));
             ("select", PDict [("field", PList (map PStr (map fst (properties self))))]);
             ("options", PDict [("showprivate", PStr "true")]);
             ("filter", query_filter);
             ("pagesize", PInt 1000);
             ("offset", PInt 0);
             ("orderby", orderby)])] in
  function_entry <-
    match data with
    | (key, v) :: _ => ret (key, v)
    | [] => raise StopIteration
    end ;;
  emit ReadClock ;;;
  let timestamp := utc_now world in
  sender_id <- lift (config_item "sender_id") ;;
  sender_password <- lift (config_item "sender_password") ;;
  emit DrawUuid ;;;
  ret (PDict
         [("request",
           PDict [("control",
                   PDict [("senderid", PStr sender_id);
                          ("password", PStr sender_password);
                          ("controlid", PDatetime timestamp);
                          ("uniqueid", PBool false);
                          ("dtdversion", PFloat "3.0");
                          ("includewhitespace", PBool false)]);
                  ("operation",
                   PDict [("authentication", PDict [("sessionid", PStr (session_id self))]);
                          ("content",
                           PDict [("function",
                                   PDict [("@controlid", PStr (fresh_uuid world));
                                          function_entry])])])])]).

(** Lines 144-210. *)
Definition prepare_request_payload : Eff effect string :=
  if String.eqb (name self) "audit_history"
  then raise (PlainException "TODO hanlde audit streams")
  else
    dict_body <- request_envelope ;;
    ret (unparse dict_body).

End Builder.

(** Replace what sits at [path] inside nested dictionaries. *)
Fixpoint put_at (path : list string) (new : pyval) (v : pyval) : pyval :=
  match path with
  | [] => new
  | k :: path' =>
      match v with
      | PDict d =>
          PDict (match dict_get k d with
                 | Some inner => dict_set k (put_at path' new inner) d
                 | None => d
                 end)
      | _ => v
      end
  end.

(** The envelope with its two correlation identifiers blanked. *)
Definition without_control_ids (envelope : pyval) : pyval :=
  put_at ["request"; "control"; "controlid"] (PStr "")
    (put_at ["request"; "operation"; "content"; "function"; "@controlid"] (PStr "")
       envelope).

(** ** Sample exchanges

    Bodies as the vendor sends them, with the tree [xmltodict.parse]
    builds for each (attributes under ["@name"], an element repeated
    under one parent as a list, an empty element as [None]). *)

Module Samples.

Definition envelope (operation : json) : json :=
  JDict [("response",
          JDict [("control", JDict [("status", JStr "success")]);
                 ("operation", operation)])].

Definition authenticated (result : json) : json :=
  JDict [("authentication", JDict [("status", JStr "success")]);
         ("result", result)].

Definition customers : stream :=
  {| name := "customers";
     intacct_obj_name := "CUSTOMER";
     properties :=
       [("RECORDNO", [("type", JList [JStr "string"; JStr "null"])]);
        ("NAME", [("type", JList [JStr "string"; JStr "null"])]);
        ("WHENMODIFIED", [("type", JList [JStr "string"; JStr "null"]);
                          ("format", JStr "date-time")]);
        ("WHENCREATED", [("type", JList [JStr "string"; JStr "null"]);
                         ("format", JStr "date-time")])];
     config := [("sender_id", "acme"); ("sender_password", "s3cret")];
     session_id := "sess-01" |}.

Definition one_record_body : string :=
  "<response><control><status>success</status></control><operation><authentication><status>success</status></authentication><result><status>success</status><data listtype='customer' count='1'><CUSTOMER><RECORDNO>7</RECORDNO></CUSTOMER></data></result></operation></response>".

Definition one_record_tree : json :=
  envelope (authenticated
    (JDict [("status", JStr "success");
            ("data", JDict [("@listtype", JStr "customer"); ("@count", JStr "1");
                            ("CUSTOMER", JDict [("RECORDNO", JStr "7")])])])).

Definition no_record_body : string :=
  "<response><control><status>success</status></control><operation><authentication><status>success</status></authentication><result><status>success</status><data listtype='customer' count='0'/></result></operation></response>".

Definition no_record_tree : json :=
  envelope (authenticated
    (JDict [("status", JStr "success");
            ("data", JDict [("@listtype", JStr "customer"); ("@count", JStr "0")])])).

Definition two_record_body : string :=
  "<response><control><status>success</status></control><operation><authentication><status>success</status></authentication><result><status>success</status><data listtype='customer' count='2'><CUSTOMER><RECORDNO>7</RECORDNO></CUSTOMER><CUSTOMER><RECORDNO>8</RECORDNO></CUSTOMER></data></result></operation></response>".

Definition two_record_tree : json :=
  envelope (authenticated
    (JDict [("status", JStr "success");
            ("data", JDict [("@listtype", JStr "customer"); ("@count", JStr "2");
                            ("CUSTOMER", JList [JDict [("RECORDNO", JStr "7")];
                                                JDict [("RECORDNO", JStr "8")]])])])).

Definition failed_result_body : string :=
  "<response><control><status>success</status></control><operation><authentication><status>success</status></authentication><result><status>failure</status><errormessage><error><errorno>DL02000001</errorno><description2>There was an error processing the request.</description2></error></errormessage></result></operation></response>".

Definition failed_result_operation : json :=
  authenticated
    (JDict [("status", JStr "failure");
            ("errormessage",
             JDict [("error",
                     JDict [("errorno", JStr "DL02000001");
                            ("description2",
                             JStr "There was an error processing the request.")])])]).

Definition failed_result_tree : json := envelope failed_result_operation.

Definition bare_failure_body : string :=
  "<response><control><status>success</status></control><operation><authentication><status>success</status></authentication><result><status>failure</status><errormessage><error><errorno>XL03000006</errorno></error></errormessage></result></operation></response>".

Definition bare_failure_operation : json :=
  authenticated
    (JDict [("status", JStr "failure");
            ("errormessage",
             JDict [("error", JDict [("errorno", JStr "XL03000006")])])]).

Definition bare_failure_tree : json := envelope bare_failure_operation.

Definition maintenance_body : string :=
  "<html><body>maintenance</body></html>".

Definition maintenance_tree : json :=
  JDict [("html", JDict [("body", JStr "maintenance")])].

Definition gateway_error_body : string :=
  "<response><errormessage><error><errorno>GW-0011</errorno><description>Incorrect sender credentials</description></error></errormessage></response>".

Definition gateway_error_tree : json :=
  JDict [("response",
          JDict [("errormessage",
                  JDict [("error",
                          JDict [("errorno", JStr "GW-0011");
                                 ("description", JStr "Incorrect sender credentials")])])])].

Definition busy_body : string :=
  "<response><errormessage><error><errorno>XL03000009</errorno><correction>The service is busy. Please Try Again Later.</correction></error></errormessage></response>".

Definition busy_tree : json :=
  JDict [("response",
          JDict [("errormessage",
                  JDict [("error",
                          JDict [("errorno", JStr "XL03000009");
                                 ("correction",
                                  JStr "The service is busy. Please Try Again Later.")])])])].

Definition plain_text_body : string := "Service Unavailable".

Definition table : list (string * json) :=
  [(one_record_body, one_record_tree);
   (no_record_body, no_record_tree);
   (two_record_body, two_record_tree);
   (failed_result_body, failed_result_tree);
   (bare_failure_body, bare_failure_tree);
   (maintenance_body, maintenance_tree);
   (gateway_error_body, gateway_error_tree);
   (busy_body, busy_tree)].

(** The decoder restricted to the sample bodies; any other text (such as
    [plain_text_body]) is taken as undecodable. *)
Definition decode (body : string) : option json := dict_get body table.

(** A diagnostic-ID decoder that hands the message back unchanged. *)
Definition support_id (errormessage : json) : result json := Return errormessage.

Definition parse (status : Z) (body : string) : M json :=
  parse_response decode support_id customers {| status_code := status; text := body |}.

(** A record as the parser hands it over. *)
Definition raw_row : row :=
  [("RECORDNO", Raw (JStr "7"));
   ("NAME", Raw (JStr "Acme"));
   ("WHENMODIFIED", Raw (JStr "01/15/2024 13:45:00"));
   ("WHENCREATED", Raw JNull)].

Definition watermark : datetime :=
  {| year := 2024; month := 1; day := 15;
     hour := 13; minute := 45; second := 7; microsecond := 250;
     tzinfo := Some 0%Z |}.

Definition first_call : ambient :=
  {| starting_timestamp := Some watermark;
     utc_now := {| year := 2024; month := 3; day := 1;
                   hour := 9; minute := 0; second := 0; microsecond := 0;
                   tzinfo := Some 0%Z |};
     fresh_uuid := "0b0e7a52-6f0c-4f5e-9d57-1c2f4a7f3b10" |}.

Definition second_call : ambient :=
  {| starting_timestamp := Some watermark;
     utc_now := {| year := 2024; month := 3; day := 1;
                   hour := 9; minute := 0; second := 1; microsecond := 0;
                   tzinfo := Some 0%Z |};
     fresh_uuid := "5d2c9c1e-8a43-4b7e-b0a1-93e6f2d4c8aa" |}.

Definition rep_keys : list (string * string) := [("audit_history", "ACCESSTIME")].
Definition get_by_date_field : string := "WHENMODIFIED".

Definition quote : string := String (ascii_of_nat 34) "".

Definition is_attribute (k : string) : bool := String.prefix "@" k.

(** The UTC offset as [str(dt)] ends with it. *)
Definition show_offset (tz : option Z) : string :=
  match tz with
  | None => ""
  | Some offset =>
      let a := Z.abs_nat offset in
      (if (offset <? 0)%Z then "-" else "+")
      ++ pad2 (a / 3600) ++ ":" ++ pad2 ((a mod 3600) / 60)
      ++ (if a mod 60 =? 0 then "" else ":" ++ pad2 (a mod 60))
  end.

(** [str(dt)]. *)
Definition show_datetime (dt : datetime) : string :=
  pad4 (year dt) ++ "-" ++ pad2 (month dt) ++ "-" ++ pad2 (day dt) ++ " "
  ++ pad2 (hour dt) ++ ":" ++ pad2 (minute dt) ++ ":" ++ pad2 (second dt)
  ++ (if microsecond dt =? 0 then ""
      else "." ++ pad2 (microsecond dt / (100 * 100))
               ++ pad4 (microsecond dt mod (100 * 100)))
  ++ show_offset (tzinfo dt).

Definition attributes (d : list (string * pyval)) : string :=
  String.concat ""
    (map (fun p =>
            match p with
            | (k, PStr s) =>
                if is_attribute k
                then " " ++ substring 1 (String.length k) k ++ "=" ++ quote ++ s ++ quote
                else ""
            | _ => ""
            end) d).

(** A serialiser in the manner of [xmltodict.unparse]: one element per
    key, keys that start with [@] as attributes, a list as the element
    repeated, a scalar as its text. *)
Fixpoint element (tag : string) (v : pyval) : string :=
  let wrap body := "<" ++ tag ++ ">" ++ body ++ "</" ++ tag ++ ">" in
  match v with
  | PStr s => wrap s
  | PInt n => wrap (show_status n)
  | PBool b => wrap (if b then "true" else "false")
  | PFloat repr => wrap repr
  | PDatetime dt => wrap (show_datetime dt)
  | PList items => String.concat "" (map (element tag) items)
  | PDict d =>
      "<" ++ tag ++ attributes d ++ ">"
      ++ String.concat ""
           (map (fun p => if is_attribute (fst p) then "" else element (fst p) (snd p)) d)
      ++ "</" ++ tag ++ ">"
  end.

Definition unparse (document : pyval) : string :=
  "<?xml version=" ++ quote ++ "1.0" ++ quote ++ " encoding=" ++ quote ++ "utf-8"
  ++ quote ++ "?>" ++ String (ascii_of_nat 10) ""
  ++ match document with
     | PDict [(root, v)] => element root v
     | _ => ""
     end.

Definition build (world : ambient) : Eff effect string :=
  prepare_request_payload rep_keys get_by_date_field unparse customers world.

End Samples.

(** ** Vocabulary of the statements *)

(** The correction holds the phrase, as Python's [in] reads it: a
    substring of a text, an entry of a list of texts, a key of a mapping. *)
Definition mentions_phrase (correction : json) : Prop :=
  match correction with
  | JStr s => exists a b, s = a ++ PHRASE ++ b
  | JList l => In (JStr PHRASE) l
  | JDict d => exists v, dict_get PHRASE d = Some v
  | JNull => False
  end.

Definition listed_statuses : list Z := [400; 401; 403; 404; 498; 500]%Z.

(** The entry [k] of [d] when it is a mapping, the empty mapping when [d]
    has no such entry. *)
Definition mapping_or_absent (k : string) (d : list (string * json))
  : option (list (string * json)) :=
  match dict_get k d with
  | None => Some []
  | Some (JDict inner) => Some inner
  | Some _ => None
  end.

(** [response.errormessage.error] is a mapping, or is missing from some
    level on. *)
Definition outer_error_shaped (parsed : json) : Prop :=
  exists p r em e,
    parsed = JDict p
    /\ mapping_or_absent "response" p = Some r
    /\ mapping_or_absent "errormessage" r = Some em
    /\ mapping_or_absent "error" em = Some e.

(** The error payload of a failed result: [result.errormessage] is a
    mapping or missing, and its [error] is not a list that starts with
    something else than a mapping. *)
Definition result_error_shaped (operation : json) : Prop :=
  exists res em,
    at_path ["result"] operation = Some (JDict res)
    /\ mapping_or_absent "errormessage" res = Some em
    /\ match dict_get "error" em with
       | Some (JList (JDict _ :: _)) => True
       | Some (JList (_ :: _)) => False
       | _ => True
       end.

Definition control_status (parsed : json) : option json :=
  at_path ["response"; "control"; "status"] parsed.



Definition DESCRIPTION2 : list string :=
  ["response"; "operation"; "result"; "errormessage"; "error"].

(** The payload of [e] holds [d2] as the [description2] of the failed
    result's error, or of the first of its errors. *)
Definition reflects (e : exn) (d2 : json) : Prop :=
  exists tree error,
    In tree (payload_of e)
    /\ at_path DESCRIPTION2 tree = Some error
    /\ (at_path ["description2"] error = Some d2
        \/ exists first rest,
             error = JList (first :: rest)
             /\ at_path ["description2"] first = Some d2).

(** The first way the compiled expression matches [s] leaves [x]. *)
Definition first_match (items : list item) (s : string) (acc : captures)
  (x : captures * string) : Prop :=
  exists t, run items s acc = x :: t.

(** ** Further sample exchanges *)

Module Cases.

Definition control_failure_body : string :=
  "<response><control><status>failure</status></control><errormessage><error><errorno>XL03000006</errorno><description2>Incorrect sender password</description2></error></errormessage></response>".

Definition control_failure_message : json :=
  JDict [("error",
          JDict [("errorno", JStr "XL03000006");
                 ("description2", JStr "Incorrect sender password")])].

Definition control_failure_tree : json :=
  JDict [("response",
          JDict [("control", JDict [("status", JStr "failure")]);
                 ("errormessage", control_failure_message)])].

Definition expired_session_body : string :=
  "<response><control><status>success</status></control><operation><authentication><status>failure</status></authentication><errormessage><error><errorno>XL03000006</errorno><description2>Session expired</description2></error></errormessage></operation></response>".

Definition expired_session_message : json :=
  JDict [("error",
          JDict [("errorno", JStr "XL03000006");
                 ("description2", JStr "Session expired")])].

Definition expired_session_operation : json :=
  JDict [("authentication", JDict [("status", JStr "failure")]);
         ("errormessage", expired_session_message)].

Definition expired_session_tree : json := Samples.envelope expired_session_operation.

Definition aborted_control_body : string :=
  "<response><control><status>aborted</status></control></response>".

Definition aborted_control_tree : json :=
  JDict [("response", JDict [("control", JDict [("status", JStr "aborted")])])].

Definition two_errors_body : string :=
  "<response><errormessage><error><errorno>XL03000003</errorno></error><error><errorno>XL03000006</errorno></error></errormessage></response>".

Definition two_errors_tree : json :=
  JDict [("response",
          JDict [("errormessage",
                  JDict [("error",
                          JList [JDict [("errorno", JStr "XL03000003")];
                                 JDict [("errorno", JStr "XL03000006")]])])])].

Definition aborted_result_body : string :=
  "<response><control><status>success</status></control><operation><authentication><status>success</status></authentication><result><status>aborted</status><errormessage><error>first</error><error>second</error></errormessage></result></operation></response>".

Definition aborted_result_operation : json :=
  Samples.authenticated
    (JDict [("status", JStr "aborted");
            ("errormessage", JDict [("error", JList [JStr "first"; JStr "second"])])]).

Definition aborted_result_tree : json := Samples.envelope aborted_result_operation.

Definition two_corrections_body : string :=
  "<response><errormessage><error><errorno>XL03000009</errorno><correction>Please Try Again Later, in five minutes.</correction><correction>Contact support.</correction></error></errormessage></response>".

Definition two_corrections : json :=
  JList [JStr "Please Try Again Later, in five minutes."; JStr "Contact support."].

Definition two_corrections_error : list (string * json) :=
  [("errorno", JStr "XL03000009"); ("correction", two_corrections)].

Definition two_corrections_tree : json :=
  JDict [("response",
          JDict [("errormessage", JDict [("error", JDict two_corrections_error)])])].

Definition table : list (string * json) :=
  [(control_failure_body, control_failure_tree);
   (expired_session_body, expired_session_tree);
   (aborted_control_body, aborted_control_tree);
   (two_errors_body, two_errors_tree);
   (aborted_result_body, aborted_result_tree);
   (two_corrections_body, two_corrections_tree)].

(** The decoder on these bodies and on those of [Samples]. *)
Definition decode (body : string) : option json :=
  match dict_get body table with
  | Some tree => Some tree
  | None => Samples.decode body
  end.

Definition parse (status : Z) (body : string) : M json :=
  parse_response decode Samples.support_id Samples.customers
    {| status_code := status; text := body |}.



(** A naive watermark of the year 999. *)
Definition early_watermark : datetime :=
  {| year := 999; month := 1; day := 15;
     hour := 13; minute := 45; second := 7; microsecond := 0; tzinfo := None |}.

(** A record whose date fields are all empty. *)
Definition undated_row : row :=
  [("RECORDNO", Raw (JStr "9"));
   ("NAME", Raw (JStr "Globex"));
   ("WHENMODIFIED", Raw JNull);
   ("WHENCREATED", Raw JNull)].

End Cases.

(** Navigation in a request envelope. *)
Fixpoint pv_at (path : list string) (v : pyval) : option pyval :=
  match path with
  | [] => Some v
  | k :: path' =>
      match v with
      | PDict d => match dict_get k d with
                   | Some inner => pv_at path' inner
                   | None => None
                   end
      | _ => None
      end
  end.

Definition QUERY : list string :=
  ["request"; "operation"; "content"; "function"; "query"].

(** The naive timestamp at the start of the day of [dt]. *)
Definition midnight (dt : datetime) : datetime :=
  {| year := year dt; month := month dt; day := day dt;
     hour := 0; minute := 0; second := 0; microsecond := 0; tzinfo := None |}.

(** The date of [dt] written [MM/DD/YYYY], on two, two and four digits. *)
Definition date_text (dt : datetime) : string :=
  pad2 (month dt) ++ String "/" (pad2 (day dt) ++ String "/" (pad4 (year dt))).

(** Digits as characters, the number a sequence of digits writes, and
    the reading of the digits a string starts with. *)
Definition string_of_digits (ds : list nat) : string :=
  fold_right (fun d s => String (digit_char d) s) EmptyString ds.

Definition number_of_digits (acc : nat) (ds : list nat) : nat :=
  fold_left (fun a d => 10 * a + d) ds acc.

Fixpoint read_decimal (acc : nat) (s : string) : nat * string :=
  match s with
  | EmptyString => (acc, EmptyString)
  | String c rest =>
      if in_class "0" "9" c
      then read_decimal (10 * acc + (nat_of_ascii c - 48)) rest
      else (acc, s)
  end.

(** [exception_msg.get("correction", {})] on the error mapping. *)
Definition correction_of (error : list (string * json)) : json :=
  match dict_get "correction" error with
  | Some c => c
  | None => JDict []
  end.

(** Every declared date field of the record is present and null. *)
Definition dates_all_null (fields : list string) (r : row) : Prop :=
  forall f, In f fields -> dict_get f r = Some (Raw JNull).

(** What follows the first slash of [s]. *)
Fixpoint after_slash (s : string) : string :=
  match s with
  | EmptyString => EmptyString
  | String c rest => if Ascii.eqb c "/" then rest else after_slash rest
  end.

Definition drop4 (s : string) : string :=
  match s with
  | String _ (String _ (String _ (String _ rest))) => rest
  | _ => EmptyString
  end.

(** The expression both formats start with, and what the full format
    adds to it. *)
Definition DATE_ITEMS : list item :=
  [Capture Fm; Char "/"; Capture Fd; Char "/"; Capture FY].

Definition TIME_ITEMS : list item :=
  [Blanks; Capture FH; Char ":"; Capture FM; Char ":"; Capture FS].

(** * Properties *)

Example parse_two_records :
  Samples.parse 200 Samples.two_record_body
  = ([], Return (JList [JDict [("RECORDNO", JStr "7")]; JDict [("RECORDNO", JStr "8")]])).
Proof. vm_compute. reflexivity. Qed.

Example parse_plain_text_503 :
  Samples.parse 503 Samples.plain_text_body
  = ([], Raise (Intacct OfflineServiceError
                  [Text "Response status code: 503, response: Service Unavailable"])).
Proof. vm_compute. reflexivity. Qed.

Example parse_busy_502 :
  snd (Samples.parse 502 Samples.busy_body)
  = Raise (Intacct PleaseTryAgainLaterError [Obj Samples.busy_tree]).
Proof. vm_compute. reflexivity. Qed.

(** ** Strings *)

Lemma prefix_app (n h : string) :
  String.prefix n h = true <-> exists b, h = n ++ b.
Proof.
  revert h. induction n as [|c n IH]; intros h; simpl.
  - split; [intros _; exists h; reflexivity | destruct h; reflexivity].
  - destruct h as [|c' h].
    + split; [discriminate | intros [b Hb]; discriminate].
    + simpl. destruct (Ascii.ascii_dec c c') as [->|Hne].
      * rewrite IH. split; intros [b Hb]; exists b; [now rewrite Hb | now inversion Hb].
      * split; [discriminate | intros [b Hb]; inversion Hb; congruence].
Qed.

Lemma is_substring_app (n h : string) :
  is_substring n h = true <-> exists a b, h = a ++ n ++ b.
Proof.
  induction h as [|c h IH].
  - change (is_substring n "") with (String.prefix n "" || false).
    rewrite orb_false_r, prefix_app. split.
    + intros [b Hb]. exists "", b. exact Hb.
    + intros [a [b Hb]]. destruct a; [exists b; exact Hb | discriminate].
  - change (is_substring n (String c h))
      with (String.prefix n (String c h) || is_substring n h).
    rewrite orb_true_iff, prefix_app, IH. split.
    + intros [[b Hb] | [a [b Hb]]].
      * exists "", b. exact Hb.
      * exists (String c a), b. simpl. now rewrite Hb.
    + intros [a [b Hb]]. destruct a as [|c' a].
      * left. exists b. exact Hb.
      * right. exists a, b. simpl in Hb. now inversion Hb.
Qed.

Lemma str_eq_true (v : json) (lit : string) :
  str_eq v lit = true <-> v = JStr lit.
Proof.
  destruct v; simpl; try (split; [discriminate | intros H; discriminate]).
  rewrite String.eqb_eq. split; [now intros -> | now intros [= ->]].
Qed.

Lemma str_eq_false (v : json) (lit : string) :
  str_eq v lit = false <-> v <> JStr lit.
Proof.
  rewrite <- str_eq_true. destruct (str_eq v lit); split; congruence.
Qed.

Lemma existsb_str_eq (l : list json) (lit : string) :
  existsb (fun x => str_eq x lit) l = true <-> In (JStr lit) l.
Proof.
  rewrite existsb_exists. split.
  - intros [x [Hin Hx]]. apply str_eq_true in Hx. now subst.
  - intros Hin. exists (JStr lit). split; [exact Hin | now apply str_eq_true].
Qed.

Lemma asks_retry_mentions (correction : json) :
  (mentions_phrase correction -> correction_asks_retry correction = Return true)
  /\ (~ mentions_phrase correction -> correction_asks_retry correction = Return false).
Proof.
  unfold correction_asks_retry.
  destruct correction as [|s|l|d]; unfold mentions_phrase, truthy, py_in.
  - split; [contradiction | reflexivity].
  - destruct (String.eqb_spec s "") as [->|Hs]; cbn [negb].
    + split; [|reflexivity]. intros [a [b Hab]]. destruct a; discriminate.
    + destruct (is_substring PHRASE s) eqn:E.
      * split; [reflexivity|]. apply is_substring_app in E. contradiction.
      * split; [|reflexivity]. intros H. apply is_substring_app in H. congruence.
  - destruct l as [|x l]; [split; [contradiction | reflexivity]|].
    destruct (existsb (fun x0 => str_eq x0 PHRASE) (x :: l)) eqn:E.
    + split; [reflexivity|]. apply existsb_str_eq in E. contradiction.
    + split; [|reflexivity]. intros H. apply existsb_str_eq in H. congruence.
  - destruct d as [|x d]; [split; [intros [v Hv]; discriminate | reflexivity]|].
    destruct (dict_get PHRASE (x :: d)) eqn:E.
    + split; [reflexivity|]. intros H. exfalso. apply H. eauto.
    + split; [|reflexivity]. intros [v Hv]. discriminate.
Qed.

(** ** The parser *)

Lemma at_path_step (k : string) (path : list string) (v x : json) :
  at_path (k :: path) v = Some x ->
  exists d y, v = JDict d /\ dict_get k d = Some y /\ at_path path y = Some x.
Proof.
  simpl. destruct v as [| | |d]; try discriminate.
  destruct (dict_get k d) as [y|] eqn:E; [|discriminate].
  intros H. exists d, y. auto.
Qed.

Lemma at_path_nil (v x : json) : at_path [] v = Some x -> v = x.
Proof. now intros [= ->]. Qed.

(** Turn a path fact into facts about each dictionary on the way. *)
Ltac open_path H :=
  let d := fresh "d" in
  let y := fresh "y" in
  let Hd := fresh "Hd" in
  let Hg := fresh "Hg" in
  lazymatch type of H with
  | at_path (_ :: _) _ = Some _ =>
      apply at_path_step in H; destruct H as [d [y [Hd [Hg H]]]];
      try subst; open_path H
  | at_path [] _ = Some _ => apply at_path_nil in H; try subst
  end.

Section ParserFacts.

Variable xml_decode : string -> option json.
Variable support : json -> result json.
Variable self : stream.

Lemma parse_not_200 (r : response) (parsed : json) :
  xml_decode (text r) = Some parsed ->
  status_code r <> 200%Z ->
  parse_response xml_decode support self r
  = ([], Raise (classify (status_code r) parsed)).
Proof.
  intros Hd Hs. unfold parse_response. rewrite Hd.
  destruct (Z.eqb_spec (status_code r) 200); [contradiction | reflexivity].
Qed.

Lemma parse_fell_through (r : response) (parsed : json) :
  xml_decode (text r) = Some parsed ->
  snd (walk_envelope support self parsed) = Return None ->
  snd (parse_response xml_decode support self r)
  = Raise (classify (status_code r) parsed).
Proof.
  intros Hd Hw. unfold parse_response. rewrite Hd.
  destruct (status_code r =? 200)%Z.
  - destruct (walk_envelope support self parsed) as [l o]. simpl in Hw. subst o.
    reflexivity.
  - reflexivity.
Qed.

Lemma parse_reaches_classify (r : response) (parsed : json) :
  xml_decode (text r) = Some parsed ->
  status_code r <> 200%Z \/ snd (walk_envelope support self parsed) = Return None ->
  snd (parse_response xml_decode support self r)
  = Raise (classify (status_code r) parsed).
Proof.
  intros Hd [Hs | Hw].
  - now rewrite (parse_not_200 r parsed Hd Hs).
  - now apply parse_fell_through.
Qed.

End ParserFacts.

Lemma mapping_or_absent_get (k : string) (d inner : list (string * json)) :
  mapping_or_absent k d = Some inner ->
  get_default (JDict d) k (JDict []) = Return (JDict inner).
Proof.
  unfold mapping_or_absent. simpl. destruct (dict_get k d) as [[| | |x]|]; congruence.
Qed.

(** Lines 285-288 on a document whose [response.errormessage.error] is
    a mapping, or is missing from some level on. *)
Lemma outer_error_of_mappings (p rsp em e : list (string * json)) :
  mapping_or_absent "response" p = Some rsp ->
  mapping_or_absent "errormessage" rsp = Some em ->
  mapping_or_absent "error" em = Some e ->
  outer_error (JDict p) = Return (JDict e, correction_of e).
Proof.
  intros Hr Hem He. unfold outer_error, rbind.
  rewrite (mapping_or_absent_get _ _ _ Hr), (mapping_or_absent_get _ _ _ Hem),
    (mapping_or_absent_get _ _ _ He).
  unfold correction_of. simpl. now destruct (dict_get "correction" e).
Qed.

Lemma errorno_test (e : list (string * json)) :
  match get_default (JDict e) "errorno" JNull with
  | Return errorno => str_eq errorno "GW-0011" = true
                      <-> dict_get "errorno" e = Some (JStr "GW-0011")
  | Raise _ => False
  end.
Proof.
  simpl. destruct (dict_get "errorno" e) as [x|].
  - rewrite str_eq_true. split; [now intros -> | now intros [= ->]].
  - simpl. split; discriminate.
Qed.

Lemma not_listed (status : Z) :
  ~ In status listed_statuses ->
  (status =? 400)%Z = false /\ (status =? 401)%Z = false /\ (status =? 403)%Z = false
  /\ (status =? 404)%Z = false /\ (status =? 498)%Z = false /\ (status =? 500)%Z = false.
Proof.
  unfold listed_statuses. simpl. intros H.
  repeat match goal with |- _ /\ _ => split end;
    apply Z.eqb_neq; intros ->; apply H; auto 10.
Qed.

(** C4.  When the body cannot be decoded the parser looks at the HTTP
    status first: 502 raises the bad-gateway error, 503 the
    offline-service error, 429 the rate-limit error, and every other
    status (200 included) the invalid-XML error; each carries the status
    code and the raw body in its message, and nothing is logged. *)
Theorem undecodable_body_classified_by_status :
  forall (xml_decode : string -> option json) (support : json -> result json)
         (self : stream) (r : response),
    xml_decode (text r) = None ->
    let raised cls :=
      parse_response xml_decode support self r
      = ([], Raise (Intacct cls
                      [Text ("Response status code: " ++ show_status (status_code r)
                             ++ ", response: " ++ text r)])) in
    (status_code r = 502%Z -> raised BadGatewayError)
    /\ (status_code r = 503%Z -> raised OfflineServiceError)
    /\ (status_code r = 429%Z -> raised RateLimitError)
    /\ (status_code r <> 502%Z -> status_code r <> 503%Z -> status_code r <> 429%Z ->
        raised InvalidXmlResponse).
Proof.
  intros xml_decode support self r Hd. cbv zeta.
  unfold parse_response, decode_failure, raise, status_line. rewrite Hd.
  repeat match goal with |- _ /\ _ => split end.
  - intros ->. reflexivity.
  - intros ->. reflexivity.
  - intros ->. reflexivity.
  - intros H1 H2 H3.
    destruct (Z.eqb_spec (status_code r) 502); [contradiction|].
    destruct (Z.eqb_spec (status_code r) 503); [contradiction|].
    destruct (Z.eqb_spec (status_code r) 429); [contradiction|].
    reflexivity.
Qed.

Lemma undecodable_body_witness :
  Samples.parse 503 Samples.plain_text_body
  = ([], Raise (Intacct OfflineServiceError
                  [Text "Response status code: 503, response: Service Unavailable"]))
  /\ Samples.parse 200 Samples.plain_text_body
     = ([], Raise (Intacct InvalidXmlResponse
                     [Text "Response status code: 200, response: Service Unavailable"])).
Proof.
  split.
  - apply (undecodable_body_classified_by_status Samples.decode Samples.support_id
             Samples.customers
             {| status_code := 503; text := Samples.plain_text_body |} eq_refl).
    reflexivity.
  - apply (undecodable_body_classified_by_status Samples.decode Samples.support_id
             Samples.customers
             {| status_code := 200; text := Samples.plain_text_body |} eq_refl);
      discriminate.
Defined.

(** C3, as amended.  Take a decoded response that reaches the
    classification by HTTP status (the status is not 200, or the walk of a
    200 envelope fell through) and in which [response.errormessage.error]
    is a mapping [e], or is missing from some level on ([e] is then
    empty).  The parser raises: for 400 the authentication failure when
    the [errorno] of [e] is the text GW-0011 and the invalid-request error
    otherwise; the invalid-token error for 401, no-privilege for 403,
    not-found for 404, expired-token for 498, internal-server-error for
    500.  For any other status it looks at the [correction] of [e]: a
    text raises the please-try-again-later error exactly when the phrase
    is a substring of it; a list (a repeated element) exactly when one of
    its entries is the phrase itself; a mapping exactly when the phrase is
    one of its keys; in every other case, and when there is no correction
    or an empty one, the generic SDK error around the whole parsed
    response. *)
Theorem http_status_classification :
  forall (xml_decode : string -> option json) (support : json -> result json)
         (self : stream) (r : response) (p rsp em e : list (string * json)),
    xml_decode (text r) = Some (JDict p) ->
    (status_code r <> 200%Z
     \/ snd (walk_envelope support self (JDict p)) = Return None) ->
    mapping_or_absent "response" p = Some rsp ->
    mapping_or_absent "errormessage" rsp = Some em ->
    mapping_or_absent "error" em = Some e ->
    let raises x := snd (parse_response xml_decode support self r) = Raise x in
    let retry := Intacct PleaseTryAgainLaterError [Obj (JDict p)] in
    let generic := Intacct SageIntacctSDKError [Interp "Error: " (JDict p)] in
    (status_code r = 400%Z ->
     dict_get "errorno" e = Some (JStr "GW-0011") ->
     raises (Intacct AuthFailure
               [Interp "One or more authentication values are incorrect. Response:"
                       (JDict p)]))
    /\ (status_code r = 400%Z ->
        dict_get "errorno" e <> Some (JStr "GW-0011") ->
        raises (Intacct InvalidRequest [Text "Invalid request"; Obj (JDict p)]))
    /\ (status_code r = 401%Z ->
        raises (Intacct InvalidTokenError
                  [Interp "Invalid token / Incorrect credentials. Response: " (JDict p)]))
    /\ (status_code r = 403%Z ->
        raises (Intacct NoPrivilegeError
                  [Interp "Forbidden, the user has insufficient privilege. Response: "
                          (JDict p)]))
    /\ (status_code r = 404%Z ->
        raises (Intacct NotFoundItemError
                  [Interp "Not found item with ID. Response: " (JDict p)]))
    /\ (status_code r = 498%Z ->
        raises (Intacct ExpiredTokenError
                  [Interp "Expired token, try to refresh it. Response: " (JDict p)]))
    /\ (status_code r = 500%Z ->
        raises (Intacct InternalServerError
                  [Interp "Internal server error. Response: " (JDict p)]))
    /\ (~ In (status_code r) listed_statuses ->
        forall s, dict_get "correction" e = Some (JStr s) ->
          ((exists a b, s = a ++ "Please Try Again Later" ++ b) -> raises retry)
          /\ (~ (exists a b, s = a ++ "Please Try Again Later" ++ b) -> raises generic))
    /\ (~ In (status_code r) listed_statuses ->
        forall l, dict_get "correction" e = Some (JList l) ->
          (In (JStr "Please Try Again Later") l -> raises retry)
          /\ (~ In (JStr "Please Try Again Later") l -> raises generic))
    /\ (~ In (status_code r) listed_statuses ->
        forall d, dict_get "correction" e = Some (JDict d) ->
          (dict_get "Please Try Again Later" d <> None -> raises retry)
          /\ (dict_get "Please Try Again Later" d = None -> raises generic))
    /\ (~ In (status_code r) listed_statuses ->
        dict_get "correction" e = Some JNull \/ dict_get "correction" e = None ->
        raises generic).
Proof.
  intros xml_decode support self r p rsp em e Hd Hreach Hrsp Hem He.
  cbv zeta.
  rewrite (parse_reaches_classify xml_decode support self r (JDict p) Hd Hreach).
  unfold classify. rewrite (outer_error_of_mappings p rsp em e Hrsp Hem He).
  pose proof (errorno_test e) as Herrno.
  unfold raise_for_status, correction_of.
  repeat match goal with |- _ /\ _ => split end.
  - intros -> Hgw. simpl Z.eqb. cbv iota.
    destruct (get_default (JDict e) "errorno" JNull) as [errorno|]; [|contradiction].
    apply Herrno in Hgw. now rewrite Hgw.
  - intros -> Hgw. simpl Z.eqb. cbv iota.
    destruct (get_default (JDict e) "errorno" JNull) as [errorno|]; [|contradiction].
    destruct (str_eq errorno "GW-0011") eqn:E; [|reflexivity].
    exfalso. apply Hgw, Herrno. reflexivity.
  - intros ->. reflexivity.
  - intros ->. reflexivity.
  - intros ->. reflexivity.
  - intros ->. reflexivity.
  - intros ->. reflexivity.
  - intros Hs s ->. destruct (not_listed _ Hs) as (-> & -> & -> & -> & -> & ->).
    destruct (asks_retry_mentions (JStr s)) as [Hyes Hno].
    split; intros Hm; [now rewrite (Hyes Hm) | now rewrite (Hno Hm)].
  - intros Hs l ->. destruct (not_listed _ Hs) as (-> & -> & -> & -> & -> & ->).
    destruct (asks_retry_mentions (JList l)) as [Hyes Hno].
    split; intros Hm; [now rewrite (Hyes Hm) | now rewrite (Hno Hm)].
  - intros Hs d ->. destruct (not_listed _ Hs) as (-> & -> & -> & -> & -> & ->).
    destruct (asks_retry_mentions (JDict d)) as [Hyes Hno].
    split; intros Hm.
    + rewrite Hyes; [reflexivity|]. unfold mentions_phrase.
      destruct (dict_get PHRASE d) as [v|] eqn:E; [eauto | contradiction].
    + rewrite Hno; [reflexivity|]. intros [v Hv]. unfold PHRASE in Hv. congruence.
  - intros Hs Hc. destruct (not_listed _ Hs) as (-> & -> & -> & -> & -> & ->).
    destruct Hc as [-> | ->]; reflexivity.
Qed.

Lemma http_status_classification_witness :
  snd (Samples.parse 400 Samples.gateway_error_body)
  = Raise (Intacct AuthFailure
             [Interp "One or more authentication values are incorrect. Response:"
                     Samples.gateway_error_tree])
  /\ snd (Samples.parse 502 Samples.busy_body)
     = Raise (Intacct PleaseTryAgainLaterError [Obj Samples.busy_tree]).
Proof.
  split.
  - assert (Hs : status_code {| status_code := 400; text := Samples.gateway_error_body |}
                 <> 200%Z) by discriminate.
    destruct (http_status_classification Samples.decode Samples.support_id
                Samples.customers
                {| status_code := 400; text := Samples.gateway_error_body |}
                _ _ _ _ eq_refl (or_introl Hs) eq_refl eq_refl eq_refl) as [H _].
    apply H; reflexivity.
  - assert (Hs : status_code {| status_code := 502; text := Samples.busy_body |}
                 <> 200%Z) by discriminate.
    destruct (http_status_classification Samples.decode Samples.support_id
                Samples.customers
                {| status_code := 502; text := Samples.busy_body |}
                _ _ _ _ eq_refl (or_introl Hs) eq_refl eq_refl eq_refl)
      as (_ & _ & _ & _ & _ & _ & _ & H & _).
    apply (H ltac:(unfold listed_statuses; cbn [In status_code]; intuition discriminate)
             "The service is busy. Please Try Again Later." eq_refl).
    exists "The service is busy. ", ".". reflexivity.
Defined.

(** C3, the claim as stated fails.  When the vendor sends two
    [correction] elements the decoder yields a list, and the phrase is
    looked up as an entry of the list, not inside its texts: the first
    correction contains the phrase and the parser still raises the
    generic SDK error. *)
Lemma correction_list_is_not_searched :
  Cases.decode Cases.two_corrections_body = Some Cases.two_corrections_tree
  /\ at_path ["response"; "errormessage"; "error"; "correction"]
       Cases.two_corrections_tree
     = Some (JList [JStr "Please Try Again Later, in five minutes.";
                    JStr "Contact support."])
  /\ "Please Try Again Later, in five minutes."
     = "" ++ "Please Try Again Later" ++ ", in five minutes."
  /\ Cases.parse 502 Cases.two_corrections_body
     = ([], Raise (Intacct SageIntacctSDKError
                     [Interp "Error: " Cases.two_corrections_tree])).
Proof. repeat split; vm_compute; reflexivity. Qed.

(** ** Walking a 200 envelope *)

Ltac use_lookups :=
  repeat (progress (simpl;
    repeat match goal with
           | H : dict_get ?k ?d = _ |- context [dict_get ?k ?d] => rewrite H
           end)).

(** Two lookups of one key in one dictionary give one value. *)
Ltac same_lookups :=
  repeat match goal with
         | H : JDict _ = JDict _ |- _ => inversion H; subst; clear H
         | H1 : dict_get ?k ?d = Some ?a, H2 : dict_get ?k ?d = Some ?b |- _ =>
             rewrite H1 in H2; inversion H2; subst; clear H2
         end.

Lemma str_eq_other (v : json) (lit : string) :
  v <> JStr lit -> str_eq v lit = false.
Proof. apply str_eq_false. Qed.

Section Walk.

Variable support : json -> result json.
Variable self : stream.

Lemma walk_control_failed (parsed em : json) :
  control_status parsed = Some (JStr "failure") ->
  at_path ["response"; "errormessage"] parsed = Some em ->
  walk_envelope support self parsed
  = match support em with
    | Return decoded =>
        ([], Raise (Intacct WrongParamsError
                      [Text "Some of the parameters are wrong"; Obj decoded]))
    | Raise e => ([], Raise e)
    end.
Proof.
  unfold control_status. intros Hc He.
  open_path Hc. open_path He. same_lookups.
  unfold walk_envelope. use_lookups. destruct (support em); reflexivity.
Qed.

Lemma walk_authentication_failed (parsed op em : json) :
  control_status parsed = Some (JStr "success") ->
  at_path ["response"; "operation"] parsed = Some op ->
  at_path ["authentication"; "status"] op = Some (JStr "failure") ->
  at_path ["errormessage"] op = Some em ->
  walk_envelope support self parsed
  = ([], Raise (Intacct InvalidTokenError
                  [Text "Invalid token / Incorrect credentials"; Obj em])).
Proof.
  unfold control_status. intros Hc Ho Ha He.
  open_path Hc. open_path Ho. open_path Ha. open_path He. same_lookups.
  unfold walk_envelope. use_lookups. reflexivity.
Qed.

Lemma walk_result_succeeded (parsed op ast records : json) :
  control_status parsed = Some (JStr "success") ->
  at_path ["response"; "operation"] parsed = Some op ->
  at_path ["authentication"; "status"] op = Some ast ->
  ast <> JStr "failure" ->
  at_path ["result"; "status"] op = Some (JStr "success") ->
  at_path ["result"; "data"; intacct_obj_name self] op = Some records ->
  walk_envelope support self parsed = ([], Return (Some records)).
Proof.
  unfold control_status. intros Hc Ho Ha Hna Hr Hd.
  open_path Hc. open_path Ho. open_path Ha. open_path Hr. open_path Hd. same_lookups.
  unfold walk_envelope. use_lookups.
  rewrite (str_eq_other _ _ Hna). use_lookups. reflexivity.
Qed.

Lemma walk_result_not_success (parsed op ast rst : json) :
  control_status parsed = Some (JStr "success") ->
  at_path ["response"; "operation"] parsed = Some op ->
  at_path ["authentication"; "status"] op = Some ast ->
  ast <> JStr "failure" ->
  at_path ["result"; "status"] op = Some rst ->
  rst <> JStr "success" ->
  walk_envelope support self parsed
  = bind (failure_diagnostics op) (fun _ => ret None).
Proof.
  unfold control_status. intros Hc Ho Ha Hna Hr Hnr.
  open_path Hc. open_path Ho. open_path Ha. open_path Hr. same_lookups.
  unfold walk_envelope. use_lookups.
  rewrite (str_eq_other _ _ Hna). use_lookups.
  rewrite (str_eq_other _ _ Hnr).
  destruct (failure_diagnostics _) as [l [v|e]]; simpl; now rewrite ?app_nil_r.
Qed.

End Walk.

(** The failure branch writes its one log line whatever happens next. *)
Lemma failure_diagnostics_log (op : json) :
  fst (failure_diagnostics op) = [(ERROR, Interp "Intacct error response: " op)].
Proof.
  unfold failure_diagnostics, logger_error, emit. cbn [bind].
  destruct (get_default op "result" (JDict [])) as [res|]; cbn; [|reflexivity].
  destruct (get_default res "errormessage" (JDict [])) as [em|]; cbn; [|reflexivity].
  destruct (get_default em "error" (JDict [])) as [error|]; cbn; [|reflexivity].
  destruct (description2 error); reflexivity.
Qed.

Lemma failure_diagnostics_value (op : json) :
  result_error_shaped op ->
  exists v, snd (failure_diagnostics op) = Return v.
Proof.
  intros (res & em & Hres & Hem & Herr). open_path Hres.
  unfold failure_diagnostics, mapping_or_absent in *.
  destruct (dict_get "errormessage" res) as [[| | |x]|] eqn:E;
    inversion Hem; subst; use_lookups.
  - destruct (dict_get "error" em) as [error|]; simpl; [|eauto].
    destruct error as [| |l|inner]; simpl; eauto.
    + destruct l as [|first rest]; simpl; eauto.
      destruct first; try contradiction. simpl.
      destruct (dict_get "description2" _); eauto.
    + destruct (dict_get "description2" inner); eauto.
  - eauto.
Qed.

Lemma asks_retry_total (correction : json) :
  exists b, correction_asks_retry correction = Return b.
Proof.
  unfold correction_asks_retry.
  destruct correction as [|s|l|d]; unfold truthy, py_in; eauto.
  - destruct (negb _); eauto.
  - destruct l; eauto.
  - destruct d; eauto.
Qed.

Lemma outer_error_of_shape (parsed : json) :
  outer_error_shaped parsed ->
  exists e correction, outer_error parsed = Return (JDict e, correction).
Proof.
  intros (p & r & em & e & -> & Hr & Hem & He).
  unfold outer_error, rbind.
  rewrite (mapping_or_absent_get _ _ _ Hr), (mapping_or_absent_get _ _ _ Hem),
    (mapping_or_absent_get _ _ _ He).
  simpl. destruct (dict_get "correction" e); eauto.
Qed.


Lemma at_path_app (p q : list string) (v : json) :
  at_path (p ++ q) v
  = match at_path p v with
    | Some x => at_path q x
    | None => None
    end.
Proof.
  revert v. induction p as [|k p IH]; intros v; simpl; [reflexivity|].
  destruct v as [| | |d]; try reflexivity.
  destruct (dict_get k d); [apply IH | reflexivity].
Qed.

Section Contract.

Variable xml_decode : string -> option json.
Variable support : json -> result json.
Variable self : stream.

Lemma parse_200 (r : response) (parsed : json) :
  xml_decode (text r) = Some parsed ->
  status_code r = 200%Z ->
  parse_response xml_decode support self r
  = bind (walk_envelope support self parsed)
      (fun returned =>
         match returned with
         | Some records => ret records
         | None => raise (classify 200 parsed)
         end).
Proof.
  intros Hd Hs. unfold parse_response. rewrite Hd, Hs. reflexivity.
Qed.

(** A failed result: the log line, then the classification. *)
Lemma parse_failed_result (r : response) (parsed op ast rst : json) :
  xml_decode (text r) = Some parsed ->
  status_code r = 200%Z ->
  control_status parsed = Some (JStr "success") ->
  at_path ["response"; "operation"] parsed = Some op ->
  at_path ["authentication"; "status"] op = Some ast ->
  ast <> JStr "failure" ->
  at_path ["result"; "status"] op = Some rst ->
  rst <> JStr "success" ->
  fst (parse_response xml_decode support self r)
  = [(ERROR, Interp "Intacct error response: " op)]
  /\ snd (parse_response xml_decode support self r)
     = match snd (failure_diagnostics op) with
       | Return _ => Raise (classify 200 parsed)
       | Raise e => Raise e
       end.
Proof.
  intros Hd Hs Hc Ho Ha Hna Hr Hnr.
  rewrite (parse_200 r parsed Hd Hs).
  rewrite (walk_result_not_success support self parsed op ast rst Hc Ho Ha Hna Hr Hnr).
  pose proof (failure_diagnostics_log op) as Hlog.
  destruct (failure_diagnostics op) as [l [v|e]]; simpl in *; subst l; split; reflexivity.
Qed.

End Contract.

(** X3.  A successful result: the entry under the remote object name
    comes back as it is, whatever its shape, and nothing is logged. *)
Lemma parse_successful_result :
  forall (xml_decode : string -> option json) (support : json -> result json)
         (self : stream) (r : response) (parsed op ast records : json),
    xml_decode (text r) = Some parsed ->
    status_code r = 200%Z ->
    control_status parsed = Some (JStr "success") ->
    at_path ["response"; "operation"] parsed = Some op ->
    at_path ["authentication"; "status"] op = Some ast ->
    ast <> JStr "failure" ->
    at_path ["result"; "status"] op = Some (JStr "success") ->
    at_path ["result"; "data"; intacct_obj_name self] op = Some records ->
    parse_response xml_decode support self r = ([], Return records).
Proof.
  intros xml_decode support self r parsed op ast records Hd Hs Hc Ho Ha Hna Hr Hrec.
  rewrite (parse_200 _ support self r parsed Hd Hs),
    (walk_result_succeeded support self parsed op ast records Hc Ho Ha Hna Hr Hrec).
  reflexivity.
Qed.

(** X4.  When the data mapping of a successful result has no entry under
    the remote object name the parser raises [KeyError] with that name. *)
Lemma parse_result_without_records :
  forall (xml_decode : string -> option json) (support : json -> result json)
         (self : stream) (r : response) (parsed op ast : json)
         (data : list (string * json)),
    xml_decode (text r) = Some parsed ->
    status_code r = 200%Z ->
    control_status parsed = Some (JStr "success") ->
    at_path ["response"; "operation"] parsed = Some op ->
    at_path ["authentication"; "status"] op = Some ast ->
    ast <> JStr "failure" ->
    at_path ["result"; "status"] op = Some (JStr "success") ->
    at_path ["result"; "data"] op = Some (JDict data) ->
    dict_get (intacct_obj_name self) data = None ->
    parse_response xml_decode support self r
    = ([], Raise (KeyError (intacct_obj_name self))).
Proof.
  intros xml_decode support self r parsed op ast data Hd Hs Hc Ho Ha Hna Hr Hdata Hnone.
  rewrite (parse_200 _ support self r parsed Hd Hs).
  unfold control_status in Hc.
  open_path Hc. open_path Ho. open_path Ha. open_path Hr. open_path Hdata. same_lookups.
  unfold walk_envelope. use_lookups.
  rewrite (str_eq_other _ _ Hna). use_lookups. reflexivity.
Qed.




(** C1.  On a successful result the parser hands back whatever sits under
    the remote object name, untouched: a single record comes back as the
    bare mapping and not as a one-element list, and a result without
    records raises [KeyError]; only a list of records is returned as the
    list it is. *)
Theorem single_record_is_not_wrapped :
  Samples.parse 200 Samples.one_record_body
  = ([], Return (JDict [("RECORDNO", JStr "7")]))
  /\ Samples.parse 200 Samples.no_record_body = ([], Raise (KeyError "CUSTOMER"))
  /\ Samples.parse 200 Samples.two_record_body
     = ([], Return (JList [JDict [("RECORDNO", JStr "7")];
                           JDict [("RECORDNO", JStr "8")]])).
Proof. repeat split; vm_compute; reflexivity. Qed.

(** Everything the parser does outside the failed-result branch leaves
    the log empty. *)
Lemma walk_logs_only_on_failed_result (support : json -> result json)
  (self : stream) (parsed : json) :
  fst (walk_envelope support self parsed) <> [] ->
  exists op rst,
    control_status parsed = Some (JStr "success")
    /\ at_path ["response"; "operation"] parsed = Some op
    /\ at_path ["result"; "status"] op = Some rst
    /\ rst <> JStr "success".
Proof.
  unfold walk_envelope, control_status.
  destruct parsed as [| | |p]; try (simpl; congruence).
  simpl. destruct (dict_get "response" p) as [r|] eqn:Hr; [|simpl; congruence].
  destruct r as [| | |r]; try (simpl; congruence).
  simpl. destruct (dict_get "control" r) as [c|] eqn:Hc; [|simpl; congruence].
  destruct c as [| | |c]; try (simpl; congruence).
  simpl. destruct (dict_get "status" c) as [st|] eqn:Hst; [|simpl; congruence].
  simpl. destruct (str_eq st "success") eqn:Hsuccess.
  - apply str_eq_true in Hsuccess. subst st. simpl.
    destruct (dict_get "operation" r) as [op|] eqn:Hop; [|simpl; congruence].
    simpl. destruct op as [| | |o]; try (simpl; congruence).
    simpl. destruct (dict_get "authentication" o) as [a|] eqn:Ha; [|simpl; congruence].
    destruct a as [| | |a]; try (simpl; congruence).
    simpl. destruct (dict_get "status" a) as [ast|] eqn:Hast; [|simpl; congruence].
    simpl. destruct (str_eq ast "failure").
    + destruct (dict_get "errormessage" o); simpl; congruence.
    + destruct (dict_get "result" o) as [res|] eqn:Hres; [|simpl; congruence].
      destruct res as [| | |res]; try (simpl; congruence).
      simpl. destruct (dict_get "status" res) as [rst|] eqn:Hrst; [|simpl; congruence].
      simpl. destruct (str_eq rst "success") eqn:Hrs.
      * destruct (dict_get "data" res) as [data|]; [|simpl; congruence].
        destruct data as [| | |data]; try (simpl; congruence).
        simpl. destruct (dict_get (intacct_obj_name self) data); simpl; congruence.
      * intros _. exists (JDict o), rst. simpl. rewrite Hres, Hrst.
        repeat split. now apply str_eq_false.
  - simpl. destruct (str_eq st "failure").
    + destruct (dict_get "errormessage" r); [|simpl; congruence].
      simpl. destruct (support j); simpl; congruence.
    + simpl. congruence.
Qed.

(** C5, as amended.  For an HTTP 200 response whose result status is
    "failure": the parser writes exactly one log record, at error level,
    holding the whole operation payload, and no other path of the parser
    logs; it reads [description2] from the error mapping, or from the
    first mapping of a list of errors, getting Python's [None] when that
    mapping has no [description2] and the empty string when the error
    payload is neither a mapping nor a non-empty list; and, the error
    payloads being well shaped, it raises the generic SDK error (or the
    try-again-later error) whose payload is the whole parsed response, in
    which a present [description2] is found. *)
Theorem failed_result_is_logged_and_raised :
  forall (xml_decode : string -> option json) (support : json -> result json)
         (self : stream) (r : response) (parsed op ast : json),
    xml_decode (text r) = Some parsed ->
    status_code r = 200%Z ->
    control_status parsed = Some (JStr "success") ->
    at_path ["response"; "operation"] parsed = Some op ->
    at_path ["authentication"; "status"] op = Some ast ->
    ast <> JStr "failure" ->
    at_path ["result"; "status"] op = Some (JStr "failure") ->
    fst (parse_response xml_decode support self r)
    = [(ERROR, Interp "Intacct error response: " op)]
    /\ (forall d,
          at_path ["result"; "errormessage"; "error"] op = Some (JDict d) ->
          snd (failure_diagnostics op)
          = Return (match dict_get "description2" d with
                    | Some v => v
                    | None => JNull
                    end))
    /\ (forall d rest,
          at_path ["result"; "errormessage"; "error"] op = Some (JList (JDict d :: rest)) ->
          snd (failure_diagnostics op)
          = Return (match dict_get "description2" d with
                    | Some v => v
                    | None => JNull
                    end))
    /\ (forall error,
          at_path ["result"; "errormessage"; "error"] op = Some error ->
          error = JNull \/ error = JList [] \/ (exists s, error = JStr s) ->
          snd (failure_diagnostics op) = Return (JStr ""))
    /\ (result_error_shaped op -> outer_error_shaped parsed ->
        exists cls args,
          snd (parse_response xml_decode support self r) = Raise (Intacct cls args)
          /\ (cls = SageIntacctSDKError \/ cls = PleaseTryAgainLaterError)
          /\ payload_of (Intacct cls args) = [parsed]
          /\ forall error d2,
               at_path ["result"; "errormessage"; "error"] op = Some error ->
               (at_path ["description2"] error = Some d2
                \/ exists first rest,
                     error = JList (first :: rest)
                     /\ at_path ["description2"] first = Some d2) ->
               reflects (Intacct cls args) d2)
    /\ (forall r',
          fst (parse_response xml_decode support self r') <> [] ->
          status_code r' = 200%Z
          /\ exists parsed' op' rst,
               xml_decode (text r') = Some parsed'
               /\ control_status parsed' = Some (JStr "success")
               /\ at_path ["response"; "operation"] parsed' = Some op'
               /\ at_path ["result"; "status"] op' = Some rst
               /\ rst <> JStr "success").
Proof.
  intros xml_decode support self r parsed op ast Hd Hs Hc Ho Ha Hna Hr.
  assert (Hnr : JStr "failure" <> JStr "success") by discriminate.
  destruct (parse_failed_result xml_decode support self r parsed op ast _
              Hd Hs Hc Ho Ha Hna Hr Hnr) as [Hlog Hout].
  split; [exact Hlog|].
  split; [|split; [|split; [|split]]].
  - intros d He. open_path He. unfold failure_diagnostics. use_lookups.
    destruct (dict_get "description2" d); reflexivity.
  - intros d rest He. open_path He. unfold failure_diagnostics. use_lookups.
    destruct (dict_get "description2" d); reflexivity.
  - intros error He Hshape. open_path He. unfold failure_diagnostics. use_lookups.
    destruct Hshape as [-> | [-> | [s ->]]]; reflexivity.
  - intros Hres Hshape.
    destruct (failure_diagnostics_value op Hres) as [v Hv]. rewrite Hv in Hout.
    destruct (outer_error_of_shape _ Hshape) as (e & correction & Hoe).
    assert (Hcls : classify 200 parsed
                   = Intacct SageIntacctSDKError [Interp "Error: " parsed]
                   \/ classify 200 parsed
                      = Intacct PleaseTryAgainLaterError [Obj parsed]).
    { unfold classify. rewrite Hoe. unfold raise_for_status.
      destruct (asks_retry_total correction) as [[|] ->]; simpl; auto. }
    assert (Hfind : forall cls args error d2,
               payload_of (Intacct cls args) = [parsed] ->
               at_path ["result"; "errormessage"; "error"] op = Some error ->
               (at_path ["description2"] error = Some d2
                \/ exists first rest,
                     error = JList (first :: rest)
                     /\ at_path ["description2"] first = Some d2) ->
               reflects (Intacct cls args) d2).
    { intros cls args error d2 Hp He Hd2. exists parsed, error.
      rewrite Hp. split; [now left|]. split; [|exact Hd2].
      change DESCRIPTION2
        with (["response"; "operation"] ++ ["result"; "errormessage"; "error"])%list.
      now rewrite at_path_app, Ho. }
    destruct Hcls as [Hcls | Hcls]; rewrite Hcls in Hout;
      do 2 eexists; (split; [exact Hout|]); (split; [auto|]);
      (split; [reflexivity|]); intros error d2; now apply Hfind.
  - intros r' Hlog'. unfold parse_response in Hlog'.
    destruct (xml_decode (text r')) as [parsed'|] eqn:Hd'; [|now simpl in Hlog'].
    destruct (Z.eqb_spec (status_code r') 200) as [Hs'|Hs']; [|now simpl in Hlog'].
    split; [exact Hs'|].
    assert (Hw : fst (walk_envelope support self parsed') <> []).
    { intros Hw. apply Hlog'.
      destruct (walk_envelope support self parsed') as [l [[v|]|e]];
        simpl in *; subst l; reflexivity. }
    destruct (walk_logs_only_on_failed_result support self parsed' Hw)
      as (op' & rst & H1 & H2 & H3 & H4).
    exists parsed', op', rst. auto.
Qed.

Lemma failed_result_witness :
  fst (Samples.parse 200 Samples.failed_result_body)
  = [(ERROR, Interp "Intacct error response: " Samples.failed_result_operation)].
Proof.
  assert (Hna : JStr "success" <> JStr "failure") by discriminate.
  destruct (failed_result_is_logged_and_raised Samples.decode Samples.support_id
              Samples.customers
              {| status_code := 200; text := Samples.failed_result_body |}
              Samples.failed_result_tree Samples.failed_result_operation
              (JStr "success")
              eq_refl eq_refl eq_refl eq_refl eq_refl Hna eq_refl) as [H _].
  exact H.
Defined.

(** C5, the claim as stated fails: when the error mapping has no
    [description2] the value extracted is [None], not the empty string. *)
Lemma absent_description2_is_none :
  at_path ["result"; "errormessage"; "error"; "description2"]
    Samples.bare_failure_operation = None
  /\ snd (failure_diagnostics Samples.bare_failure_operation) = Return JNull
  /\ snd (failure_diagnostics Samples.bare_failure_operation) <> Return (JStr "").
Proof.
  split; [reflexivity|]. split; [reflexivity|]. discriminate.
Qed.

(** ** Dates *)

Arguments capture f n c : simpl never.

Lemma run_char (c : ascii) (items : list item) (rest : string) (acc : captures) :
  run (Char c :: items) (String c rest) acc = run items rest acc.
Proof. simpl. now rewrite Ascii.eqb_refl. Qed.

(** Evaluate the tests on concrete characters and the value of the text a
    group matched. *)
Ltac eval_classes :=
  cbn -[int_of in_class];
  repeat match goal with
         | |- context [in_class ?a ?b ?c] =>
             let v := eval vm_compute in (in_class a b c) in
             change (in_class a b c) with v; cbn -[int_of in_class]
         end;
  repeat match goal with
         | |- context [int_of 0 ?m] =>
             let v := eval vm_compute in (int_of 0 m) in
             change (int_of 0 m) with v
         end.

(** A two-digit field written by [pad2] is read back by its capture
    group: the first way the group matches takes both digits. *)
Ltac read_back n Hrun :=
  destruct n as [|n];
  [ try (exfalso; lia); eval_classes; rewrite Hrun; eexists; reflexivity | ].

Lemma digit_char_facts (k : nat) :
  k < 10 ->
  in_class "0" "9" (digit_char k) = true
  /\ is_space (digit_char k) = false
  /\ nat_of_ascii (digit_char k) - 48 = k.
Proof.
  intros Hk.
  do 10 (destruct k as [|k]; [vm_compute; auto|]).
  exfalso; lia.
Qed.

Section ReadBack.

Variables (items : list item) (rest : string) (acc : captures).
Variable x : captures * string.

Lemma run_month (n : nat) :
  1 <= n <= 12 ->
  first_match items rest (capture Fm n acc) x ->
  first_match (Capture Fm :: items) (pad2 n ++ rest) acc x.
Proof. intros Hn [t Hrun]. unfold first_match. do 13 read_back n Hrun. exfalso; lia. Qed.

Lemma run_day (n : nat) :
  1 <= n <= 31 ->
  first_match items rest (capture Fd n acc) x ->
  first_match (Capture Fd :: items) (pad2 n ++ rest) acc x.
Proof. intros Hn [t Hrun]. unfold first_match. do 32 read_back n Hrun. exfalso; lia. Qed.

Lemma run_hour (n : nat) :
  n < 24 ->
  first_match items rest (capture FH n acc) x ->
  first_match (Capture FH :: items) (pad2 n ++ rest) acc x.
Proof. intros Hn [t Hrun]. unfold first_match. do 24 read_back n Hrun. exfalso; lia. Qed.

Lemma run_minute (n : nat) :
  n < 60 ->
  first_match items rest (capture FM n acc) x ->
  first_match (Capture FM :: items) (pad2 n ++ rest) acc x.
Proof. intros Hn [t Hrun]. unfold first_match. do 60 read_back n Hrun. exfalso; lia. Qed.

Lemma run_second (n : nat) :
  n < 60 ->
  first_match items rest (capture FS n acc) x ->
  first_match (Capture FS :: items) (pad2 n ++ rest) acc x.
Proof. intros Hn [t Hrun]. unfold first_match. do 60 read_back n Hrun. exfalso; lia. Qed.

Lemma run_year (n : nat) :
  (Z.of_nat n < 10000)%Z ->
  first_match items rest (capture FY n acc) x ->
  first_match (Capture FY :: items) (pad4 n ++ rest) acc x.
Proof.
  intros Hn [t Hrun]. unfold first_match.
  assert (Ha : n / 1000 < 10) by (apply Nat.Div0.div_lt_upper_bound; lia).
  assert (Hb : (n / 100) mod 10 < 10) by (apply Nat.mod_upper_bound; lia).
  assert (Hc : (n / 10) mod 10 < 10) by (apply Nat.mod_upper_bound; lia).
  assert (Hd : n mod 10 < 10) by (apply Nat.mod_upper_bound; lia).
  destruct (digit_char_facts _ Ha) as (Ca & Sa & Va).
  destruct (digit_char_facts _ Hb) as (Cb & Sb & Vb).
  destruct (digit_char_facts _ Hc) as (Cc & Sc & Vc).
  destruct (digit_char_facts _ Hd) as (Cd & Sd & Vd).
  unfold pad4.
  cbn -[int_of in_class digit_char Nat.div Nat.modulo].
  unfold digit. rewrite Ca, Cb, Cc, Cd.
  cbn -[in_class digit_char Nat.div Nat.modulo Nat.mul Nat.sub nat_of_ascii is_space].
  rewrite Sa, Sb, Sc, Sd, Va, Vb, Vc, Vd.
  replace (10 * (10 * (10 * (10 * 0 + n / 1000) + (n / 100) mod 10) + (n / 10) mod 10)
           + n mod 10) with n.
  - rewrite Hrun. eexists. reflexivity.
  - pose proof (Nat.div_mod_eq n 10) as E1.
    pose proof (Nat.div_mod_eq (n / 10) 10) as E2.
    pose proof (Nat.div_mod_eq (n / 100) 10) as E3.
    replace (n / 10 / 10) with (n / 100) in E2 by (rewrite Nat.Div0.div_div; reflexivity).
    replace (n / 100 / 10) with (n / 1000) in E3 by (rewrite Nat.Div0.div_div; reflexivity).
    lia.
Qed.

Lemma run_literal (c : ascii) :
  first_match items rest acc x ->
  first_match (Char c :: items) (String c rest) acc x.
Proof. unfold first_match. now rewrite run_char. Qed.

Lemma run_blank (k : nat) (s : string) :
  k < 10 ->
  rest = String (digit_char k) s ->
  first_match items rest acc x ->
  first_match (Blanks :: items) (String " " rest) acc x.
Proof.
  intros Hk -> [t Hrun]. unfold first_match.
  destruct (digit_char_facts _ Hk) as (_ & Sk & _).
  cbn -[digit_char is_space].
  change (is_space " ") with true. rewrite Sk. cbn -[digit_char].
  rewrite Hrun. eexists. reflexivity.
Qed.

End ReadBack.

(** A two-digit field followed by its separator is read in exactly one
    way: the one-digit alternative stops in front of a digit, where the
    separator is expected. *)
Ltac read_exactly n :=
  destruct n as [|n];
  [ try (exfalso; lia); eval_classes; rewrite ?app_nil_r; reflexivity | ].

Lemma run_month_then (c : ascii) (n : nat) (items : list item) (rest : string)
  (acc : captures) :
  c = "/"%char ->
  1 <= n <= 12 ->
  run (Capture Fm :: Char c :: items) (pad2 n ++ String c rest) acc
  = run items rest (capture Fm n acc).
Proof. intros -> Hn. do 13 read_exactly n. exfalso; lia. Qed.

Lemma run_day_then (c : ascii) (n : nat) (items : list item) (rest : string)
  (acc : captures) :
  c = "/"%char ->
  1 <= n <= 31 ->
  run (Capture Fd :: Char c :: items) (pad2 n ++ String c rest) acc
  = run items rest (capture Fd n acc).
Proof. intros -> Hn. do 32 read_exactly n. exfalso; lia. Qed.

Lemma run_year_exactly (n : nat) (items : list item) (rest : string) (acc : captures) :
  (Z.of_nat n < 10000)%Z ->
  run (Capture FY :: items) (pad4 n ++ rest) acc = run items rest (capture FY n acc).
Proof.
  intros Hn.
  assert (Ha : n / 1000 < 10) by (apply Nat.Div0.div_lt_upper_bound; lia).
  assert (Hb : (n / 100) mod 10 < 10) by (apply Nat.mod_upper_bound; lia).
  assert (Hc : (n / 10) mod 10 < 10) by (apply Nat.mod_upper_bound; lia).
  assert (Hd : n mod 10 < 10) by (apply Nat.mod_upper_bound; lia).
  destruct (digit_char_facts _ Ha) as (Ca & Sa & Va).
  destruct (digit_char_facts _ Hb) as (Cb & Sb & Vb).
  destruct (digit_char_facts _ Hc) as (Cc & Sc & Vc).
  destruct (digit_char_facts _ Hd) as (Cd & Sd & Vd).
  unfold pad4.
  cbn -[int_of in_class digit_char Nat.div Nat.modulo].
  unfold digit. rewrite Ca, Cb, Cc, Cd.
  cbn -[in_class digit_char Nat.div Nat.modulo Nat.mul Nat.sub nat_of_ascii is_space].
  rewrite Sa, Sb, Sc, Sd, Va, Vb, Vc, Vd.
  replace (10 * (10 * (10 * (10 * 0 + n / 1000) + (n / 100) mod 10) + (n / 10) mod 10)
           + n mod 10) with n.
  - now rewrite app_nil_r.
  - pose proof (Nat.div_mod_eq n 10) as E1.
    pose proof (Nat.div_mod_eq (n / 10) 10) as E2.
    pose proof (Nat.div_mod_eq (n / 100) 10) as E3.
    replace (n / 10 / 10) with (n / 100) in E2 by (rewrite Nat.Div0.div_div; reflexivity).
    replace (n / 100 / 10) with (n / 1000) in E3 by (rewrite Nat.Div0.div_div; reflexivity).
    lia.
Qed.

Lemma format_shape (w : datetime) :
  _format_date_for_intacct w
  = pad2 (month w) ++ String "/" (pad2 (day w) ++ String "/" (decimal (year w)
      ++ String " " (pad2 (hour w) ++ String ":" (pad2 (minute w)
      ++ String ":" (pad2 (second w) ++ ""))))).
Proof. reflexivity. Qed.

Lemma decimal_aux_step (fuel n : nat) (acc : string) :
  0 < fuel ->
  decimal_aux fuel n acc
  = if n / 10 =? 0 then String (digit_char (n mod 10)) acc
    else decimal_aux (pred fuel) (n / 10) (String (digit_char (n mod 10)) acc).
Proof. destruct fuel; [lia | reflexivity]. Qed.

Lemma div10_zero (n : nat) : (n / 10 =? 0) = (n <? 10).
Proof.
  destruct (Nat.ltb_spec n 10) as [H|H].
  - apply Nat.eqb_eq. now apply Nat.div_small.
  - apply Nat.eqb_neq. intros Hz. apply Nat.div_small_iff in Hz; lia.
Qed.

(** From the year 1000 on, the year is written on four digits. *)
Lemma decimal_four (y : nat) :
  1000 <= y -> (Z.of_nat y < 10000)%Z -> decimal y = pad4 y.
Proof.
  intros Hlo Hhi. unfold decimal, pad4.
  assert (H1 : 100 <= y / 10) by (apply Nat.div_le_lower_bound; lia).
  assert (H2 : 10 <= y / 10 / 10) by (apply Nat.div_le_lower_bound; lia).
  assert (H3 : 1 <= y / 10 / 10 / 10) by (apply Nat.div_le_lower_bound; lia).
  assert (H4 : y / 10 / 10 / 10 < 10).
  { repeat (apply Nat.Div0.div_lt_upper_bound). lia. }
  rewrite decimal_aux_step, div10_zero by lia.
  destruct (Nat.ltb_spec y 10); [lia|]. cbn [pred].
  rewrite decimal_aux_step, div10_zero by lia.
  destruct (Nat.ltb_spec (y / 10) 10); [lia|].
  rewrite decimal_aux_step, div10_zero by lia.
  destruct (Nat.ltb_spec (y / 10 / 10) 10); [lia|].
  rewrite decimal_aux_step, div10_zero by lia.
  destruct (Nat.ltb_spec (y / 10 / 10 / 10) 10); [|lia].
  rewrite (Nat.mod_small (y / 10 / 10 / 10)) by lia.
  rewrite !Nat.Div0.div_div. reflexivity.
Qed.

Lemma valid_datetime_fields (w : datetime) :
  valid_datetime w = true ->
  1 <= year w /\ (Z.of_nat (year w) < 10000)%Z /\ 1 <= month w <= 12
  /\ 1 <= day w <= days_in_month (year w) (month w)
  /\ hour w < 24 /\ minute w < 60 /\ second w < 60.
Proof.
  unfold valid_datetime. rewrite !andb_true_iff.
  rewrite !Nat.leb_le, !Nat.ltb_lt, Z.leb_le. lia.
Qed.

Lemma days_in_month_le (y m : nat) : days_in_month y m <= 31.
Proof.
  unfold days_in_month.
  do 12 (destruct m as [|m]; [try destruct (is_leap y); lia|]).
  lia.
Qed.

(** The year as written is a sequence of at most four digits that
    denotes it, of fewer than four below the year 1000. *)
Lemma decimal_digits (y : nat) :
  (Z.of_nat y < 10000)%Z ->
  exists ds, Forall (fun d => d < 10) ds
             /\ decimal y = string_of_digits ds
             /\ number_of_digits 0 ds = y
             /\ (y < 1000 -> length ds < 4).
Proof.
  intros Hy. unfold decimal.
  pose proof (Nat.div_mod_eq y 10) as E1.
  pose proof (Nat.div_mod_eq (y / 10) 10) as E2.
  pose proof (Nat.div_mod_eq (y / 10 / 10) 10) as E3.
  pose proof (Nat.div_mod_eq (y / 10 / 10 / 10) 10) as E4.
  pose proof (Nat.mod_upper_bound y 10) as M1.
  pose proof (Nat.mod_upper_bound (y / 10) 10) as M2.
  pose proof (Nat.mod_upper_bound (y / 10 / 10) 10) as M3.
  pose proof (Nat.mod_upper_bound (y / 10 / 10 / 10) 10) as M4.
  rewrite decimal_aux_step, div10_zero by lia. cbn [pred].
  destruct (Nat.ltb_spec y 10) as [L1|L1].
  { exists [y mod 10]. split; [repeat (apply Forall_cons; [lia|]); apply Forall_nil|].
    split; [reflexivity|]. cbn [number_of_digits fold_left length].
    rewrite (Nat.mod_small y 10) by lia. lia. }
  rewrite decimal_aux_step, div10_zero by lia.
  destruct (Nat.ltb_spec (y / 10) 10) as [L2|L2].
  { exists [(y / 10) mod 10; y mod 10].
    split; [repeat (apply Forall_cons; [lia|]); apply Forall_nil|].
    split; [reflexivity|]. cbn [number_of_digits fold_left length]. lia. }
  rewrite decimal_aux_step, div10_zero by lia.
  destruct (Nat.ltb_spec (y / 10 / 10) 10) as [L3|L3].
  { exists [(y / 10 / 10) mod 10; (y / 10) mod 10; y mod 10].
    split; [repeat (apply Forall_cons; [lia|]); apply Forall_nil|].
    split; [reflexivity|]. cbn [number_of_digits fold_left length]. lia. }
  rewrite decimal_aux_step, div10_zero by lia.
  destruct (Nat.ltb_spec (y / 10 / 10 / 10) 10) as [L4|L4].
  { exists [(y / 10 / 10 / 10) mod 10; (y / 10 / 10) mod 10; (y / 10) mod 10; y mod 10].
    split; [repeat (apply Forall_cons; [lia|]); apply Forall_nil|].
    split; [reflexivity|]. cbn [number_of_digits fold_left length]. lia. }
  exfalso. lia.
Qed.

(** Fewer than four digits and a blank are not a year. *)
Lemma run_short_year (ds : list nat) (items : list item) (rest : string)
  (acc : captures) :
  Forall (fun d => d < 10) ds ->
  length ds < 4 ->
  run (Capture FY :: items) (string_of_digits ds ++ String " " rest) acc = [].
Proof.
  intros Hds Hlen. cbn [run alternatives flat_map]. unfold digit.
  assert (Hblank : in_class "0" "9" " " = false) by reflexivity.
  destruct ds as [|a [|b [|c [|d ds]]]];
    [| | | | simpl in Hlen; exfalso; lia];
    repeat match goal with
           | H : Forall _ (_ :: _) |- _ => inversion H; subst; clear H
           end;
    repeat match goal with
           | H : ?k < 10 |- _ =>
               let C := fresh "C" in
               destruct (digit_char_facts k H) as (C & _ & _); clear H
           end;
    cbn [string_of_digits fold_right append match_classes];
    repeat match goal with
           | H : in_class "0" "9" _ = _ |- _ => rewrite H
           end;
    rewrite ?Hblank; reflexivity.
Qed.

Lemma strptime_short_year (w : datetime) :
  valid_datetime w = true ->
  year w < 1000 ->
  strptime (_format_date_for_intacct w) FULL = None
  /\ strptime (_format_date_for_intacct w) DATE_ONLY = None.
Proof.
  intros Hv Hshort.
  pose proof (valid_datetime_fields w Hv) as (_ & HY & Hm & Hd & _).
  pose proof (days_in_month_le (year w) (month w)) as Hdim.
  assert (Hd31 : 1 <= day w <= 31) by lia.
  destruct (decimal_digits (year w) HY) as (ds & Hds & Hdec & _ & Hlen).
  specialize (Hlen Hshort).
  unfold strptime. split.
  - change (compile false FULL)
      with (Some [Capture Fm; Char "/"; Capture Fd; Char "/"; Capture FY; Blanks;
                  Capture FH; Char ":"; Capture FM; Char ":"; Capture FS]).
    rewrite format_shape, Hdec.
    rewrite (run_month_then "/" _ _ _ _ eq_refl Hm).
    rewrite (run_day_then "/" _ _ _ _ eq_refl Hd31).
    now rewrite (run_short_year ds _ _ _ Hds Hlen).
  - change (compile false DATE_ONLY)
      with (Some [Capture Fm; Char "/"; Capture Fd; Char "/"; Capture FY]).
    rewrite format_shape, Hdec.
    rewrite (run_month_then "/" _ _ _ _ eq_refl Hm).
    rewrite (run_day_then "/" _ _ _ _ eq_refl Hd31).
    now rewrite (run_short_year ds _ _ _ Hds Hlen).
Qed.

Lemma valid_truncate (w : datetime) :
  valid_datetime w = true ->
  valid_datetime (without_tzinfo (truncate_to_second w)) = true.
Proof.
  unfold valid_datetime, without_tzinfo, truncate_to_second.
  cbn [year month day hour minute second microsecond tzinfo].
  rewrite !andb_true_iff. intros H. repeat split; apply H.
Qed.

Lemma strptime_format (w : datetime) :
  valid_datetime w = true ->
  1000 <= year w ->
  strptime (_format_date_for_intacct w) FULL
  = Some (without_tzinfo (truncate_to_second w)).
Proof.
  intros Hv Hfour.
  pose proof (valid_datetime_fields w Hv) as (HY1 & HY & Hm & Hd & HH & HM & HS).
  pose proof (days_in_month_le (year w) (month w)) as Hdim.
  unfold strptime.
  change (compile false FULL)
    with (Some [Capture Fm; Char "/"; Capture Fd; Char "/"; Capture FY; Blanks;
                Capture FH; Char ":"; Capture FM; Char ":"; Capture FS]).
  rewrite format_shape, (decimal_four (year w) Hfour HY).
  set (final := capture FS (second w) (capture FM (minute w) (capture FH (hour w)
                  (capture FY (year w) (capture Fd (day w)
                     (capture Fm (month w) no_captures)))))).
  assert (Hfirst : first_match
            [Capture Fm; Char "/"; Capture Fd; Char "/"; Capture FY; Blanks;
             Capture FH; Char ":"; Capture FM; Char ":"; Capture FS]
            (pad2 (month w) ++ String "/" (pad2 (day w) ++ String "/" (pad4 (year w)
               ++ String " " (pad2 (hour w) ++ String ":" (pad2 (minute w)
               ++ String ":" (pad2 (second w) ++ ""))))))
            no_captures (final, "")).
  { apply run_month; [lia|]. apply run_literal.
    apply run_day; [lia|]. apply run_literal.
    apply run_year; [lia|].
    apply (run_blank _ _ _ _ (hour w / 10)
             (String (digit_char (hour w mod 10))
                (String ":" (pad2 (minute w) ++ String ":" (pad2 (second w) ++ ""))))).
    - apply Nat.Div0.div_lt_upper_bound. lia.
    - reflexivity.
    - apply run_hour; [lia|]. apply run_literal.
      apply run_minute; [lia|]. apply run_literal.
      apply run_second; [lia|].
      exists []. reflexivity. }
  destruct Hfirst as [t ->].
  unfold datetime_of.
  change {| year := cY final; month := cm final; day := cd final;
            hour := cH final; minute := cM final; second := cS final;
            microsecond := 0; tzinfo := None |}
    with (without_tzinfo (truncate_to_second w)).
  now rewrite (valid_truncate w Hv).
Qed.

(** C9, as amended.  A watermark of the year 1000 or later, written with
    the request builder's fixed format and read back with the date
    normaliser's first format, gives the naive timestamp that has the
    watermark's year, month, day, hour, minute and second: microseconds
    and time zone are gone; the normaliser as a whole gives the same
    answer.  What is read back is the watermark cut to whole seconds
    exactly when the watermark is naive.  Below the year 1000 the year is
    written on fewer than four digits: the first format does not read
    the text, and the normaliser raises [ValueError]. *)
Theorem watermark_round_trip :
  forall w : datetime,
    valid_datetime w = true ->
    (1000 <= year w ->
     strptime (_format_date_for_intacct w) FULL
     = Some (without_tzinfo (truncate_to_second w))
     /\ _parse_to_datetime (Raw (JStr (_format_date_for_intacct w)))
        = Return (without_tzinfo (truncate_to_second w)))
    /\ (year w < 1000 ->
        strptime (_format_date_for_intacct w) FULL = None
        /\ _parse_to_datetime (Raw (JStr (_format_date_for_intacct w)))
           = Raise (ValueError ("Invalid date format: " ++ _format_date_for_intacct w)))
    /\ (without_tzinfo (truncate_to_second w) = truncate_to_second w
        <-> tzinfo w = None).
Proof.
  intros w Hv. split; [|split].
  - intros Hfour. pose proof (strptime_format w Hv Hfour) as H.
    split; [exact H|].
    unfold _parse_to_datetime, parse_date_string. now rewrite H.
  - intros Hshort. destruct (strptime_short_year w Hv Hshort) as [Hfull Hdate].
    split; [exact Hfull|].
    unfold _parse_to_datetime, parse_date_string. now rewrite Hfull, Hdate.
  - unfold without_tzinfo, truncate_to_second.
    cbn [year month day hour minute second microsecond tzinfo]. split.
    + intros Heq. apply (f_equal tzinfo) in Heq. now symmetry.
    + now intros ->.
Qed.

Lemma watermark_round_trip_witness :
  strptime "01/15/2024 13:45:07" FULL
  = Some {| year := 2024; month := 1; day := 15;
            hour := 13; minute := 45; second := 7; microsecond := 0;
            tzinfo := None |}.
Proof.
  assert (Hfour : 1000 <= year Samples.watermark).
  { apply Nat.leb_le. reflexivity. }
  exact (proj1 (proj1 (watermark_round_trip Samples.watermark eq_refl) Hfour)).
Defined.

(** C9, the claim as stated fails twice.  The SDK's watermark is aware
    (here UTC) and what is read back is naive, so the two are not equal.
    A year below 1000 is written on fewer than four digits, which
    neither format reads. *)
Lemma watermark_is_not_read_back :
  valid_datetime Samples.watermark = true
  /\ strptime (_format_date_for_intacct Samples.watermark) FULL
     <> Some (truncate_to_second Samples.watermark)
  /\ valid_datetime Cases.early_watermark = true
  /\ _format_date_for_intacct Cases.early_watermark = "01/15/999 13:45:07"
  /\ strptime (_format_date_for_intacct Cases.early_watermark) FULL = None
  /\ _parse_to_datetime (Raw (JStr (_format_date_for_intacct Cases.early_watermark)))
     = Raise (ValueError "Invalid date format: 01/15/999 13:45:07").
Proof.
  split; [reflexivity|]. split.
  - assert (H : strptime (_format_date_for_intacct Samples.watermark) FULL
                = Some (without_tzinfo (truncate_to_second Samples.watermark)))
      by (vm_compute; reflexivity).
    rewrite H. intros Heq. apply (f_equal (fun o => option_map tzinfo o)) in Heq.
    discriminate.
  - repeat split; vm_compute; reflexivity.
Qed.

(** C6.  On a string the normaliser answers with what the full format
    reads; only when the full format fails, with what the date-only format
    reads; and when both fail it raises [ValueError] (the invalid-date kind
    of the taxonomy) whose message ends with the offending string.  Three
    sample strings are evaluated. *)
Theorem date_strings_are_parsed_in_order :
  forall s : string,
    (forall dt, strptime s FULL = Some dt ->
                _parse_to_datetime (Raw (JStr s)) = Return dt)
    /\ (forall dt, strptime s FULL = None -> strptime s DATE_ONLY = Some dt ->
                   _parse_to_datetime (Raw (JStr s)) = Return dt)
    /\ (strptime s FULL = None -> strptime s DATE_ONLY = None ->
        _parse_to_datetime (Raw (JStr s))
        = Raise (ValueError ("Invalid date format: " ++ s)))
    /\ kind_of (ValueError ("Invalid date format: " ++ s)) = Some Taxonomy.InvalidDateFormat
    /\ _parse_to_datetime (Raw (JStr "01/15/2024 13:45:00"))
       = Return {| year := 2024; month := 1; day := 15;
                   hour := 13; minute := 45; second := 0; microsecond := 0;
                   tzinfo := None |}
    /\ _parse_to_datetime (Raw (JStr "01/15/2024"))
       = Return {| year := 2024; month := 1; day := 15;
                   hour := 0; minute := 0; second := 0; microsecond := 0;
                   tzinfo := None |}
    /\ _parse_to_datetime (Raw (JStr "not-a-date"))
       = Raise (ValueError "Invalid date format: not-a-date").
Proof.
  intros s. unfold _parse_to_datetime, parse_date_string.
  split; [intros dt ->; reflexivity|].
  split; [intros dt -> ->; reflexivity|].
  split; [intros -> ->; reflexivity|].
  split; [reflexivity|].
  repeat split; vm_compute; reflexivity.
Qed.

(** ** Records *)

Lemma dict_get_set_same {A : Type} (k : string) (v v0 : A) (d : list (string * A)) :
  dict_get k d = Some v0 -> dict_get k (dict_set k v d) = Some v.
Proof.
  induction d as [|[k' v'] d IH]; simpl; [discriminate|].
  destruct (String.eqb_spec k' k) as [->|Hne]; simpl.
  - now rewrite String.eqb_refl.
  - destruct (String.eqb_spec k' k); [contradiction | exact IH].
Qed.

Lemma dict_get_set_other {A : Type} (k g : string) (v : A) (d : list (string * A)) :
  k <> g -> dict_get g (dict_set k v d) = dict_get g d.
Proof.
  intros Hne. induction d as [|[k' v'] d IH]; simpl; [reflexivity|].
  destruct (String.eqb_spec k' k) as [->|Hk]; simpl.
  - destruct (String.eqb_spec k g); [contradiction | reflexivity].
  - now rewrite IH.
Qed.

Lemma dict_set_keys {A : Type} (k : string) (v : A) (d : list (string * A)) :
  map fst (dict_set k v d) = map fst d.
Proof.
  induction d as [|[k' v'] d IH]; simpl; [reflexivity|].
  destruct (String.eqb k' k); simpl; [reflexivity | now rewrite IH].
Qed.



Lemma cell_null_dec (v : cell) : {v = Raw JNull} + {v <> Raw JNull}.
Proof. destruct v as [[| | |]|]; (now left) || (right; discriminate). Qed.

(** One iteration of the loop, by cases on the value found. *)
Lemma normalize_step (f : string) (fields : list string) (r : row) :
  normalize (f :: fields) r
  = match dict_get f r with
    | None => (r, Raise (KeyError f))
    | Some v =>
        if cell_null_dec v then normalize fields r
        else match _parse_to_datetime v with
             | Return dt => normalize fields (dict_set f (Stamp dt) r)
             | Raise e => (r, Raise e)
             end
    end.
Proof.
  simpl. destruct (dict_get f r) as [v|]; [|reflexivity].
  destruct (cell_null_dec v) as [->|Hv]; [reflexivity|].
  destruct v as [[| | |]|]; try reflexivity. contradiction.
Qed.


Lemma normalize_returns (fields : list string) :
  NoDup fields ->
  forall (r r' : row) (u : unit),
    normalize fields r = (r', Return u) ->
    map fst r' = map fst r
    /\ forall f v,
         dict_get f r = Some v ->
         (In f fields -> v <> Raw JNull ->
          exists dt, _parse_to_datetime v = Return dt /\ dict_get f r' = Some (Stamp dt))
         /\ (~ In f fields \/ v = Raw JNull -> dict_get f r' = Some v).
Proof.
  induction 1 as [|f0 fields Hnotin Hnd IH]; intros r r' u Hrun.
  - simpl in Hrun. inversion Hrun; subst. split; [reflexivity|].
    intros f v Hf. split; [contradiction | auto].
  - rewrite normalize_step in Hrun.
    destruct (dict_get f0 r) as [v0|] eqn:H0; [|discriminate].
    destruct (cell_null_dec v0) as [->|Hv0].
    + destruct (IH r r' u Hrun) as [Hkeys Hall]. split; [exact Hkeys|].
      intros f v Hf. destruct (Hall f v Hf) as [Hdate Hother]. split.
      * intros [<-|Hin] Hv; [congruence | auto].
      * intros [Hn|Hv]; apply Hother; [left; intros Hin; apply Hn; now right | now right].
    + destruct (_parse_to_datetime v0) as [dt0|e] eqn:Hp; [|discriminate].
      destruct (IH _ r' u Hrun) as [Hkeys Hall].
      rewrite dict_set_keys in Hkeys. split; [exact Hkeys|].
      intros f v Hf. destruct (String.eqb_spec f0 f) as [<-|Hne].
      * assert (v = v0) by congruence. subst v.
        destruct (Hall f0 (Stamp dt0) (dict_get_set_same f0 _ _ r H0)) as [_ Hkeep].
        split.
        -- intros _ _. exists dt0. split; [exact Hp | apply Hkeep; now left].
        -- intros [Hn|Hv]; [exfalso; apply Hn; now left | contradiction].
      * assert (Hf' : dict_get f (dict_set f0 (Stamp dt0) r) = Some v)
          by now rewrite dict_get_set_other.
        destruct (Hall f v Hf') as [Hdate Hother]. split.
        -- intros [Heq|Hin] Hv; [contradiction | auto].
        -- intros [Hn|Hv]; apply Hother;
             [left; intros Hin; apply Hn; now right | now right].
Qed.


Lemma normalize_fails (fields : list string) :
  forall (r : row) (f : string),
    In f fields ->
    (dict_get f r = None
     \/ exists v e, dict_get f r = Some v /\ v <> Raw JNull
                    /\ _parse_to_datetime v = Raise e) ->
    exists e, snd (normalize fields r) = Raise e.
Proof.
  induction fields as [|f0 fields IH]; intros r f Hin Hbad; [contradiction|].
  rewrite normalize_step.
  destruct (dict_get f0 r) as [v0|] eqn:H0; [|simpl; eauto].
  destruct (cell_null_dec v0) as [->|Hnull].
  - destruct Hin as [<-|Hin].
    + destruct Hbad as [Hbad|(v & e & Hv & Hn & _)]; congruence.
    + eapply IH; eauto.
  - destruct (_parse_to_datetime v0) as [dt0|e0] eqn:Hp; [|simpl; eauto].
    destruct Hin as [<-|Hin].
    + destruct Hbad as [Hbad|(v & e & Hv & Hn & Hr)]; congruence.
    + destruct (String.eqb_spec f0 f) as [<-|Hne].
      * destruct Hbad as [Hbad|(v & e & Hv & Hn & Hr)]; congruence.
      * apply (IH _ f Hin). now rewrite (dict_get_set_other f0 f _ r Hne).
Qed.



Lemma post_process_normalize (self : stream) (r : row) :
  post_process self r
  = (fst (normalize (datetime_fields self) r),
     match snd (normalize (datetime_fields self) r) with
     | Return _ => Return (fst (normalize (datetime_fields self) r))
     | Raise e => Raise e
     end).
Proof.
  unfold post_process. now destruct (normalize (datetime_fields self) r).
Qed.

Lemma datetime_fields_spec (self : stream) (f : string) :
  In f (datetime_fields self)
  <-> exists t, In (f, t) (properties self)
                /\ dict_get "format" t = Some (JStr "date-time").
Proof.
  assert (Hfmt : forall t, is_date_time t = true
                           <-> dict_get "format" t = Some (JStr "date-time")).
  { intros t. unfold is_date_time.
    destruct (dict_get "format" t) as [v|]; [|split; discriminate].
    destruct v as [|s|l|d]; try (split; discriminate).
    unfold str_eq. destruct (String.eqb_spec s "date-time") as [->|Hne];
      split; congruence. }
  unfold datetime_fields. rewrite in_map_iff. split.
  - intros [[f' t] [<- Hin]]. apply filter_In in Hin. exists t.
    split; [apply Hin | apply Hfmt, Hin].
  - intros [t [Hin Ht]]. exists (f, t). split; [reflexivity|].
    apply filter_In. split; [exact Hin | now apply Hfmt].
Qed.

Lemma NoDup_map_filter {A B : Type} (g : A -> B) (p : A -> bool) (l : list A) :
  NoDup (map g l) -> NoDup (map g (filter p l)).
Proof.
  induction l as [|a l IH]; simpl; intros H; [constructor|].
  inversion H as [|? ? Hnotin Hnd]; subst.
  destruct (p a); simpl; [|auto].
  constructor; [|auto].
  intros Hin. apply Hnotin. apply in_map_iff in Hin.
  destruct Hin as [b [Hb Hf]]. apply filter_In in Hf.
  apply in_map_iff. exists b. tauto.
Qed.





(** ** The request builder *)

Section BuilderFacts.

Variable REP_KEYS : list (string * string).
Variable GET_BY_DATE_FIELD : string.
Variable unparse : pyval -> string.
Variable self : stream.


(** What the builder does after the reserved-name guard, by cases on what
    it finds. *)
Lemma request_envelope_cases (world : ambient) :
  (starting_timestamp world = None
   /\ request_envelope REP_KEYS GET_BY_DATE_FIELD self world = ([ReadStartingTimestamp], Raise (AttributeError "strftime")))
  \/ (exists k, request_envelope REP_KEYS GET_BY_DATE_FIELD self world = ([ReadStartingTimestamp; ReadClock], Raise (KeyError k)))
  \/ (exists e, request_envelope REP_KEYS GET_BY_DATE_FIELD self world = ([ReadStartingTimestamp; ReadClock; DrawUuid], Return e)).
Proof.
  unfold request_envelope, config_item.
  destruct (starting_timestamp world) as [dt|]; [|left; split; reflexivity].
  right. cbn -[_format_date_for_intacct].
  destruct (dict_get "sender_id" (config self)) as [sid|]; [|left; eexists; reflexivity].
  cbn -[_format_date_for_intacct].
  destruct (dict_get "sender_password" (config self)) as [pw|];
    [|left; eexists; reflexivity].
  right. eexists. reflexivity.
Qed.

Lemma envelopes_agree (w1 w2 : ambient) (e1 e2 : pyval) :
  starting_timestamp w1 = starting_timestamp w2 ->
  snd (request_envelope REP_KEYS GET_BY_DATE_FIELD self w1) = Return e1 ->
  snd (request_envelope REP_KEYS GET_BY_DATE_FIELD self w2) = Return e2 ->
  without_control_ids e1 = without_control_ids e2.
Proof.
  unfold request_envelope, config_item. intros Hw.
  rewrite <- Hw.
  destruct (starting_timestamp w1) as [dt|]; [|discriminate].
  cbn -[_format_date_for_intacct].
  destruct (dict_get "sender_id" (config self)) as [sid|]; [|discriminate].
  cbn -[_format_date_for_intacct].
  destruct (dict_get "sender_password" (config self)) as [pw|]; [|discriminate].
  cbn -[_format_date_for_intacct].
  intros [= <-] [= <-]. reflexivity.
Qed.

Lemma envelope_outcome_agrees (w1 w2 : ambient) :
  starting_timestamp w1 = starting_timestamp w2 ->
  fst (request_envelope REP_KEYS GET_BY_DATE_FIELD self w1) = fst (request_envelope REP_KEYS GET_BY_DATE_FIELD self w2)
  /\ forall e, snd (request_envelope REP_KEYS GET_BY_DATE_FIELD self w1) = Raise e <-> snd (request_envelope REP_KEYS GET_BY_DATE_FIELD self w2) = Raise e.
Proof.
  unfold request_envelope, config_item. intros Hw.
  rewrite <- Hw.
  destruct (starting_timestamp w1) as [dt|]; [|split; [reflexivity | tauto]].
  cbn -[_format_date_for_intacct].
  destruct (dict_get "sender_id" (config self)) as [sid|];
    [|split; [reflexivity | tauto]].
  cbn -[_format_date_for_intacct].
  destruct (dict_get "sender_password" (config self)) as [pw|];
    [|split; [reflexivity | tauto]].
  cbn -[_format_date_for_intacct].
  split; [reflexivity|]. intros e. split; discriminate.
Qed.

Lemma payload_of_envelope (world : ambient) :
  name self <> "audit_history" ->
  prepare_request_payload REP_KEYS GET_BY_DATE_FIELD unparse self world
  = match request_envelope REP_KEYS GET_BY_DATE_FIELD self world with
    | (l, Return e) => (l, Return (unparse e))
    | (l, Raise x) => (l, Raise x)
    end.
Proof.
  intros Hn. unfold prepare_request_payload.
  destruct (String.eqb_spec (name self) "audit_history"); [contradiction|].
  destruct (request_envelope REP_KEYS GET_BY_DATE_FIELD self world) as [l [e|x]]; simpl; now rewrite ?app_nil_r.
Qed.

End BuilderFacts.

(** C8.  For the reserved stream name the builder raises its
    unsupported-stream error at once: nothing has been read from the
    bookmark, the clock or the random source, and no body has been built.
    For any other name that error is not what the builder raises. *)
Theorem reserved_stream_fails_fast :
  forall (REP_KEYS : list (string * string)) (GET_BY_DATE_FIELD : string)
         (unparse : pyval -> string) (self : stream) (world : ambient),
    (name self = "audit_history" ->
     prepare_request_payload REP_KEYS GET_BY_DATE_FIELD unparse self world
     = ([], Raise (PlainException "TODO hanlde audit streams")))
    /\ (name self <> "audit_history" ->
        snd (prepare_request_payload REP_KEYS GET_BY_DATE_FIELD unparse self world)
        <> Raise (PlainException "TODO hanlde audit streams"))
    /\ kind_of (PlainException "TODO hanlde audit streams")
       = Some Taxonomy.UnsupportedStream.
Proof.
  intros REP_KEYS GET_BY_DATE_FIELD unparse self world.
  split; [|split; [|reflexivity]].
  - intros Hn. unfold prepare_request_payload. now rewrite Hn.
  - intros Hn. rewrite (payload_of_envelope _ _ _ _ _ Hn).
    destruct (request_envelope_cases REP_KEYS GET_BY_DATE_FIELD self world)
      as [[_ ->] | [[k ->] | [e ->]]]; discriminate.
Qed.

Lemma reserved_stream_witness :
  prepare_request_payload Samples.rep_keys Samples.get_by_date_field Samples.unparse
    {| name := "audit_history"; intacct_obj_name := "AUDITHISTORY";
       properties := []; config := []; session_id := "sess-01" |}
    Samples.first_call
  = ([], Raise (PlainException "TODO hanlde audit streams")).
Proof.
  apply reserved_stream_fails_fast. reflexivity.
Defined.

(** C10, as amended.  The builder sends nothing: besides its arguments it
    only reads the stream's starting timestamp, the clock and the random
    source.  Two invocations for the same stream, watermark, session and
    credentials perform the same reads, fail alike, and build envelopes
    that agree everywhere except in the outer [controlid] and in the
    function's [@controlid]; with the same clock reading and the same
    identifier drawn they produce the same body. *)
Theorem request_body_fixed_up_to_control_ids :
  forall (REP_KEYS : list (string * string)) (GET_BY_DATE_FIELD : string)
         (unparse : pyval -> string) (self : stream) (w1 w2 : ambient),
    starting_timestamp w1 = starting_timestamp w2 ->
    let build := prepare_request_payload REP_KEYS GET_BY_DATE_FIELD unparse self in
    fst (build w1) = fst (build w2)
    /\ (forall e, snd (build w1) = Raise e <-> snd (build w2) = Raise e)
    /\ (forall body,
          name self <> "audit_history" ->
          snd (build w1) = Return body ->
          fst (build w1) = [ReadStartingTimestamp; ReadClock; DrawUuid]
          /\ exists e,
               snd (request_envelope REP_KEYS GET_BY_DATE_FIELD self w1) = Return e
               /\ body = unparse e)
    /\ (forall e1 e2,
          snd (request_envelope REP_KEYS GET_BY_DATE_FIELD self w1) = Return e1 ->
          snd (request_envelope REP_KEYS GET_BY_DATE_FIELD self w2) = Return e2 ->
          without_control_ids e1 = without_control_ids e2)
    /\ (utc_now w1 = utc_now w2 -> fresh_uuid w1 = fresh_uuid w2 ->
        build w1 = build w2).
Proof.
  intros REP_KEYS GET_BY_DATE_FIELD unparse self w1 w2 Hw. cbv zeta.
  destruct (envelope_outcome_agrees REP_KEYS GET_BY_DATE_FIELD self w1 w2 Hw)
    as [Hfst Hraise].
  destruct (String.eqb_spec (name self) "audit_history") as [Hn|Hn].
  - assert (Hb : forall w, prepare_request_payload REP_KEYS GET_BY_DATE_FIELD unparse self w
                           = ([], Raise (PlainException "TODO hanlde audit streams"))).
    { intros w. unfold prepare_request_payload. now rewrite Hn. }
    rewrite !Hb.
    split; [reflexivity|]. split; [intros e; split; auto|].
    split; [intros body Hne; contradiction|].
    split; [|reflexivity].
    intros e1 e2. apply envelopes_agree. exact Hw.
  - rewrite !(payload_of_envelope _ _ _ _ _ Hn).
    split; [|split; [|split; [|split]]].
    + destruct (request_envelope _ _ _ w1) as [l1 [e1|x1]];
        destruct (request_envelope _ _ _ w2) as [l2 [e2|x2]]; exact Hfst.
    + intros e. specialize (Hraise e).
      destruct (request_envelope _ _ _ w1) as [l1 [e1|x1]];
        destruct (request_envelope _ _ _ w2) as [l2 [e2|x2]]; simpl in *;
        split; intros H; try discriminate; inversion H; subst;
        destruct Hraise as [Hto Hfrom];
        first [ specialize (Hto eq_refl); inversion Hto; reflexivity
              | specialize (Hfrom eq_refl); inversion Hfrom; reflexivity ].
    + intros body _.
      destruct (request_envelope_cases REP_KEYS GET_BY_DATE_FIELD self w1)
        as [[_ ->] | [[k ->] | [e1 ->]]]; simpl; try discriminate.
      intros [= <-]. eauto.
    + intros e1 e2. apply envelopes_agree. exact Hw.
    + intros Hclock Huuid. destruct w1 as [s1 c1 u1], w2 as [s2 c2 u2].
      simpl in *. now subst.
Qed.

Lemma request_body_witness :
  without_control_ids
    match snd (request_envelope Samples.rep_keys Samples.get_by_date_field
                 Samples.customers Samples.first_call) with
    | Return e => e
    | Raise _ => PDict []
    end
  = without_control_ids
      match snd (request_envelope Samples.rep_keys Samples.get_by_date_field
                   Samples.customers Samples.second_call) with
      | Return e => e
      | Raise _ => PDict []
      end.
Proof.
  destruct (request_body_fixed_up_to_control_ids Samples.rep_keys
              Samples.get_by_date_field Samples.unparse Samples.customers
              Samples.first_call Samples.second_call eq_refl)
    as (_ & _ & _ & Hagree & _).
  apply Hagree; reflexivity.
Defined.

(** C10, the claim as stated fails: two invocations for the same stream,
    watermark, session and credentials read the clock and draw a fresh
    identifier each, and their bodies differ. *)
Lemma two_invocations_differ :
  starting_timestamp Samples.first_call = starting_timestamp Samples.second_call
  /\ snd (Samples.build Samples.first_call) <> snd (Samples.build Samples.second_call)
  /\ fst (Samples.build Samples.first_call)
     = [ReadStartingTimestamp; ReadClock; DrawUuid].
Proof.
  split; [reflexivity|]. split; [|reflexivity].
  vm_compute. intros H. inversion H.
Qed.

(** * Further properties of the parser *)

Section Depths.

Variable xml_decode : string -> option json.
Variable support : json -> result json.
Variable self : stream.

(** X1.  HTTP 200 with control status "failure": the parser hands
    [response.errormessage] to the diagnostic-ID decoder and raises the
    wrong-parameters error with what the decoder returned, whatever else
    the document holds; an exception of the decoder passes through.
    Nothing is logged. *)
Theorem control_failure_raises_wrong_params :
  forall (r : response) (parsed em : json),
    xml_decode (text r) = Some parsed ->
    status_code r = 200%Z ->
    control_status parsed = Some (JStr "failure") ->
    at_path ["response"; "errormessage"] parsed = Some em ->
    (forall decoded,
        support em = Return decoded ->
        parse_response xml_decode support self r
        = ([], Raise (Intacct WrongParamsError
                        [Text "Some of the parameters are wrong"; Obj decoded])))
    /\ (forall e,
          support em = Raise e ->
          parse_response xml_decode support self r = ([], Raise e)).
Proof.
  intros r parsed em Hd Hs Hc He.
  rewrite (parse_200 _ support self r parsed Hd Hs),
    (walk_control_failed support self parsed em Hc He).
  split; intros x ->; reflexivity.
Qed.

(** X2.  HTTP 200, control status "success", authentication status
    "failure": the parser raises the invalid-token error with the
    operation's [errormessage] as second argument, without logging; when
    the operation has no [errormessage] it is [KeyError] that is raised. *)
Theorem authentication_failure_raises_invalid_token :
  forall (r : response) (parsed op : json),
    xml_decode (text r) = Some parsed ->
    status_code r = 200%Z ->
    control_status parsed = Some (JStr "success") ->
    at_path ["response"; "operation"] parsed = Some op ->
    at_path ["authentication"; "status"] op = Some (JStr "failure") ->
    (forall em,
        at_path ["errormessage"] op = Some em ->
        parse_response xml_decode support self r
        = ([], Raise (Intacct InvalidTokenError
                        [Text "Invalid token / Incorrect credentials"; Obj em])))
    /\ (at_path ["errormessage"] op = None ->
        parse_response xml_decode support self r
        = ([], Raise (KeyError "errormessage"))).
Proof.
  intros r parsed op Hd Hs Hc Ho Ha. split.
  - intros em He.
    rewrite (parse_200 _ support self r parsed Hd Hs),
      (walk_authentication_failed support self parsed op em Hc Ho Ha He).
    reflexivity.
  - intros He. rewrite (parse_200 _ support self r parsed Hd Hs).
    unfold control_status in Hc.
    open_path Hc. open_path Ho. open_path Ha. same_lookups.
    simpl in He.
    match type of He with
    | match dict_get ?k ?d with _ => _ end = None =>
        destruct (dict_get k d) eqn:Hem; [discriminate|]
    end.
    unfold walk_envelope. use_lookups. reflexivity.
Qed.

(** X5.  HTTP 200 with a control status that is neither "success" nor
    "failure": [api_response] was never bound and the parser ends in
    [UnboundLocalError]. *)
Theorem unknown_control_status_is_unbound_local :
  forall (r : response) (parsed st : json),
    xml_decode (text r) = Some parsed ->
    status_code r = 200%Z ->
    control_status parsed = Some st ->
    st <> JStr "success" ->
    st <> JStr "failure" ->
    parse_response xml_decode support self r
    = ([], Raise (UnboundLocalError "api_response")).
Proof.
  intros r parsed st Hd Hs Hc Hns Hnf.
  rewrite (parse_200 _ support self r parsed Hd Hs).
  unfold control_status in Hc. open_path Hc.
  unfold walk_envelope. use_lookups.
  rewrite (str_eq_other _ _ Hns). use_lookups.
  rewrite (str_eq_other _ _ Hnf). reflexivity.
Qed.

Lemma walk_returns_inv (parsed records : json) (l : list log_record) :
  walk_envelope support self parsed = (l, Return (Some records)) ->
  l = []
  /\ exists op ast,
       control_status parsed = Some (JStr "success")
       /\ at_path ["response"; "operation"] parsed = Some op
       /\ at_path ["authentication"; "status"] op = Some ast
       /\ ast <> JStr "failure"
       /\ at_path ["result"; "status"] op = Some (JStr "success")
       /\ at_path ["result"; "data"; intacct_obj_name self] op = Some records.
Proof.
  unfold walk_envelope, control_status.
  destruct parsed as [| | |p]; try (simpl; congruence).
  simpl. destruct (dict_get "response" p) as [r|] eqn:Hr; [|simpl; congruence].
  destruct r as [| | |r]; try (simpl; congruence).
  simpl. destruct (dict_get "control" r) as [c|] eqn:Hc; [|simpl; congruence].
  destruct c as [| | |c]; try (simpl; congruence).
  simpl. destruct (dict_get "status" c) as [st|] eqn:Hst; [|simpl; congruence].
  simpl. destruct (str_eq st "success") eqn:Hsuccess.
  - apply str_eq_true in Hsuccess. subst st. simpl.
    destruct (dict_get "operation" r) as [op|] eqn:Hop; [|simpl; congruence].
    simpl. destruct op as [| | |o]; try (simpl; congruence).
    simpl. destruct (dict_get "authentication" o) as [a|] eqn:Ha; [|simpl; congruence].
    destruct a as [| | |a]; try (simpl; congruence).
    simpl. destruct (dict_get "status" a) as [ast|] eqn:Hast; [|simpl; congruence].
    simpl. destruct (str_eq ast "failure") eqn:Hfail.
    + destruct (dict_get "errormessage" o); simpl; congruence.
    + destruct (dict_get "result" o) as [res|] eqn:Hres; [|simpl; congruence].
      destruct res as [| | |res]; try (simpl; congruence).
      simpl. destruct (dict_get "status" res) as [rst|] eqn:Hrst; [|simpl; congruence].
      simpl. destruct (str_eq rst "success") eqn:Hrs.
      * apply str_eq_true in Hrs. subst rst.
        destruct (dict_get "data" res) as [data|] eqn:Hdata; [|simpl; congruence].
        destruct data as [| | |data]; try (simpl; congruence).
        simpl.
        destruct (dict_get (intacct_obj_name self) data) as [v|] eqn:Hv;
          [|simpl; congruence].
        simpl. intros [= <- <-]. split; [reflexivity|].
        exists (JDict o), ast. simpl.
        rewrite Ha, Hast, Hres, Hrst, Hdata, Hv.
        repeat split. now apply str_eq_false.
      * destruct (failure_diagnostics (JDict o)) as [l' [v|e]]; simpl; congruence.
  - simpl. destruct (str_eq st "failure").
    + destruct (dict_get "errormessage" r) as [em|]; [|simpl; congruence].
      simpl. destruct (support em); simpl; congruence.
    + simpl. congruence.
Qed.

(** X6.  The parser returns records only for status 200 with control
    status "success", an authentication status other than "failure" and
    result status "success"; what it returns is the entry of
    [result.data] under the remote object name, and nothing was logged. *)
Theorem records_only_from_successful_result :
  forall (r : response) (records : json),
    snd (parse_response xml_decode support self r) = Return records ->
    status_code r = 200%Z
    /\ fst (parse_response xml_decode support self r) = []
    /\ exists parsed op ast,
         xml_decode (text r) = Some parsed
         /\ control_status parsed = Some (JStr "success")
         /\ at_path ["response"; "operation"] parsed = Some op
         /\ at_path ["authentication"; "status"] op = Some ast
         /\ ast <> JStr "failure"
         /\ at_path ["result"; "status"] op = Some (JStr "success")
         /\ at_path ["result"; "data"; intacct_obj_name self] op = Some records.
Proof.
  intros r records. unfold parse_response.
  destruct (xml_decode (text r)) as [parsed|] eqn:Hd; [|simpl; discriminate].
  destruct (Z.eqb_spec (status_code r) 200) as [Hs|Hs]; [|simpl; discriminate].
  destruct (walk_envelope support self parsed) as [l [[v|]|e]] eqn:Hw;
    simpl; try discriminate.
  intros [= ->].
  destruct (walk_returns_inv parsed records l Hw) as [-> (op & ast & H)].
  split; [exact Hs|]. split; [reflexivity|].
  exists parsed, op, ast. split; [reflexivity | exact H].
Qed.

(** X7.  Whatever the status, an error raised by the classification
    stage carries the whole parsed response, and nothing else, as its
    diagnostic payload. *)
Theorem classification_carries_parsed_response :
  forall (r : response) (parsed : json),
    xml_decode (text r) = Some parsed ->
    (status_code r <> 200%Z \/ snd (walk_envelope support self parsed) = Return None) ->
    outer_error_shaped parsed ->
    exists cls args,
      snd (parse_response xml_decode support self r) = Raise (Intacct cls args)
      /\ payload_of (Intacct cls args) = [parsed].
Proof.
  intros r parsed Hd Hreach Hshape.
  rewrite (parse_reaches_classify xml_decode support self r parsed Hd Hreach).
  destruct (outer_error_of_shape _ Hshape) as (e & correction & Hout).
  unfold classify. rewrite Hout. unfold raise_for_status.
  destruct (asks_retry_total correction) as [b ->].
  simpl get_default.
  repeat match goal with
         | |- context [if ?c then _ else _] => destruct c
         | |- context [match dict_get ?k ?d with _ => _ end] => destruct (dict_get k d)
         end; do 2 eexists; split; reflexivity.
Qed.

(** X8.  With a status other than 200, a [response.errormessage.error]
    that is not a mapping (several [error] elements, a bare text, an empty
    element) makes the parser end in [AttributeError], before the status
    is looked at. *)
Theorem outer_error_not_a_mapping_escapes :
  forall (r : response) (parsed error : json),
    xml_decode (text r) = Some parsed ->
    status_code r <> 200%Z ->
    at_path ["response"; "errormessage"; "error"] parsed = Some error ->
    (forall d, error <> JDict d) ->
    parse_response xml_decode support self r = ([], Raise (AttributeError "get")).
Proof.
  intros r parsed error Hd Hs He Hnd.
  rewrite (parse_not_200 xml_decode support self r parsed Hd Hs).
  open_path He. unfold classify, outer_error, rbind. use_lookups.
  destruct error as [| | |inner]; try reflexivity.
  exfalso. now apply (Hnd inner).
Qed.

(** X9.  Any result status other than "success" is handled as a
    failure: the operation payload is logged once, then the response is
    classified as for status 200 when the error payload is well shaped;
    when the result's errors are a list that starts with something else
    than a mapping, [AttributeError] is raised after the log line. *)
Theorem any_other_result_status_is_a_failure :
  forall (r : response) (parsed op ast rst : json),
    xml_decode (text r) = Some parsed ->
    status_code r = 200%Z ->
    control_status parsed = Some (JStr "success") ->
    at_path ["response"; "operation"] parsed = Some op ->
    at_path ["authentication"; "status"] op = Some ast ->
    ast <> JStr "failure" ->
    at_path ["result"; "status"] op = Some rst ->
    rst <> JStr "success" ->
    fst (parse_response xml_decode support self r)
    = [(ERROR, Interp "Intacct error response: " op)]
    /\ (result_error_shaped op ->
        snd (parse_response xml_decode support self r) = Raise (classify 200 parsed))
    /\ (forall first rest,
          at_path ["result"; "errormessage"; "error"] op = Some (JList (first :: rest)) ->
          (forall d, first <> JDict d) ->
          snd (parse_response xml_decode support self r)
          = Raise (AttributeError "get")).
Proof.
  intros r parsed op ast rst Hd Hs Hc Ho Ha Hna Hr Hnr.
  destruct (parse_failed_result xml_decode support self r parsed op ast rst
              Hd Hs Hc Ho Ha Hna Hr Hnr) as [Hlog Hout].
  split; [exact Hlog|]. rewrite Hout. split.
  - intros Hshape. now destruct (failure_diagnostics_value op Hshape) as [v ->].
  - intros first rest He Hnd. open_path He.
    unfold failure_diagnostics. use_lookups.
    destruct first as [| | |inner]; try reflexivity.
    exfalso. now apply (Hnd inner).
Qed.

End Depths.

Lemma control_failure_witness :
  Cases.parse 200 Cases.control_failure_body
  = ([], Raise (Intacct WrongParamsError
                  [Text "Some of the parameters are wrong";
                   Obj Cases.control_failure_message])).
Proof.
  destruct (control_failure_raises_wrong_params Cases.decode Samples.support_id
              Samples.customers
              {| status_code := 200; text := Cases.control_failure_body |}
              Cases.control_failure_tree Cases.control_failure_message
              eq_refl eq_refl eq_refl eq_refl) as [H _].
  apply H. reflexivity.
Defined.

Lemma authentication_failure_witness :
  Cases.parse 200 Cases.expired_session_body
  = ([], Raise (Intacct InvalidTokenError
                  [Text "Invalid token / Incorrect credentials";
                   Obj Cases.expired_session_message])).
Proof.
  destruct (authentication_failure_raises_invalid_token Cases.decode Samples.support_id
              Samples.customers
              {| status_code := 200; text := Cases.expired_session_body |}
              Cases.expired_session_tree Cases.expired_session_operation
              eq_refl eq_refl eq_refl eq_refl eq_refl) as [H _].
  apply H. reflexivity.
Defined.

Lemma unknown_control_status_witness :
  Cases.parse 200 Cases.aborted_control_body
  = ([], Raise (UnboundLocalError "api_response")).
Proof.
  apply (unknown_control_status_is_unbound_local Cases.decode Samples.support_id
           Samples.customers
           {| status_code := 200; text := Cases.aborted_control_body |}
           Cases.aborted_control_tree (JStr "aborted") eq_refl eq_refl eq_refl);
    discriminate.
Defined.

Lemma records_only_witness :
  status_code {| status_code := 200; text := Samples.two_record_body |} = 200%Z
  /\ fst (Samples.parse 200 Samples.two_record_body) = [].
Proof.
  destruct (records_only_from_successful_result Samples.decode Samples.support_id
              Samples.customers
              {| status_code := 200; text := Samples.two_record_body |}
              (JList [JDict [("RECORDNO", JStr "7")]; JDict [("RECORDNO", JStr "8")]])
              eq_refl) as (H1 & H2 & _).
  split; [exact H1 | exact H2].
Defined.

Lemma classification_payload_witness :
  exists cls args,
    snd (Samples.parse 400 Samples.gateway_error_body) = Raise (Intacct cls args)
    /\ payload_of (Intacct cls args) = [Samples.gateway_error_tree].
Proof.
  assert (Hs : status_code {| status_code := 400; text := Samples.gateway_error_body |}
               <> 200%Z) by discriminate.
  apply (classification_carries_parsed_response Samples.decode Samples.support_id
           Samples.customers
           {| status_code := 400; text := Samples.gateway_error_body |}
           Samples.gateway_error_tree eq_refl (or_introl Hs)).
  exists [("response",
           JDict [("errormessage",
                   JDict [("error",
                           JDict [("errorno", JStr "GW-0011");
                                  ("description",
                                   JStr "Incorrect sender credentials")])])])],
         [("errormessage",
           JDict [("error",
                   JDict [("errorno", JStr "GW-0011");
                          ("description", JStr "Incorrect sender credentials")])])],
         [("error",
           JDict [("errorno", JStr "GW-0011");
                  ("description", JStr "Incorrect sender credentials")])],
         [("errorno", JStr "GW-0011");
          ("description", JStr "Incorrect sender credentials")].
  repeat split.
Defined.

Lemma outer_error_list_witness :
  Cases.parse 500 Cases.two_errors_body = ([], Raise (AttributeError "get")).
Proof.
  assert (Hs : status_code {| status_code := 500; text := Cases.two_errors_body |}
               <> 200%Z) by discriminate.
  apply (outer_error_not_a_mapping_escapes Cases.decode Samples.support_id
           Samples.customers
           {| status_code := 500; text := Cases.two_errors_body |}
           Cases.two_errors_tree
           (JList [JDict [("errorno", JStr "XL03000003")];
                   JDict [("errorno", JStr "XL03000006")]])
           eq_refl Hs eq_refl).
  discriminate.
Defined.

Lemma other_result_status_witness :
  fst (Cases.parse 200 Cases.aborted_result_body)
  = [(ERROR, Interp "Intacct error response: " Cases.aborted_result_operation)]
  /\ snd (Cases.parse 200 Cases.aborted_result_body) = Raise (AttributeError "get").
Proof.
  assert (Hna : JStr "success" <> JStr "failure") by discriminate.
  assert (Hnr : JStr "aborted" <> JStr "success") by discriminate.
  destruct (any_other_result_status_is_a_failure Cases.decode Samples.support_id
              Samples.customers
              {| status_code := 200; text := Cases.aborted_result_body |}
              Cases.aborted_result_tree Cases.aborted_result_operation
              (JStr "success") (JStr "aborted")
              eq_refl eq_refl eq_refl eq_refl eq_refl Hna eq_refl Hnr)
    as (Hlog & _ & Hraise).
  split; [exact Hlog|].
  apply (Hraise (JStr "first") [JStr "second"]); [reflexivity | discriminate].
Defined.

Lemma successful_result_witness :
  Samples.parse 200 Samples.one_record_body
  = ([], Return (JDict [("RECORDNO", JStr "7")])).
Proof.
  assert (Hna : JStr "success" <> JStr "failure") by discriminate.
  exact (parse_successful_result Samples.decode Samples.support_id Samples.customers
           {| status_code := 200; text := Samples.one_record_body |}
           Samples.one_record_tree
           (Samples.authenticated
              (JDict [("status", JStr "success");
                      ("data", JDict [("@listtype", JStr "customer");
                                      ("@count", JStr "1");
                                      ("CUSTOMER", JDict [("RECORDNO", JStr "7")])])]))
           (JStr "success") (JDict [("RECORDNO", JStr "7")])
           eq_refl eq_refl eq_refl eq_refl eq_refl Hna eq_refl eq_refl).
Defined.

Lemma result_without_records_witness :
  Samples.parse 200 Samples.no_record_body = ([], Raise (KeyError "CUSTOMER")).
Proof.
  assert (Hna : JStr "success" <> JStr "failure") by discriminate.
  exact (parse_result_without_records Samples.decode Samples.support_id
           Samples.customers
           {| status_code := 200; text := Samples.no_record_body |}
           Samples.no_record_tree
           (Samples.authenticated
              (JDict [("status", JStr "success");
                      ("data", JDict [("@listtype", JStr "customer");
                                      ("@count", JStr "0")])]))
           (JStr "success")
           [("@listtype", JStr "customer"); ("@count", JStr "0")]
           eq_refl eq_refl eq_refl eq_refl eq_refl Hna eq_refl eq_refl eq_refl).
Defined.

(** * Further properties of the date normaliser *)

Lemma date_only_shape (w : datetime) :
  date_text w
  = pad2 (month w) ++ String "/" (pad2 (day w) ++ String "/" (pad4 (year w) ++ "")).
Proof. reflexivity. Qed.

Lemma valid_midnight (w : datetime) :
  valid_datetime w = true -> valid_datetime (midnight w) = true.
Proof.
  unfold valid_datetime, midnight.
  cbn [year month day hour minute second microsecond tzinfo].
  rewrite !andb_true_iff. intros H. repeat split; apply H.
Qed.

(** X10.  [MM/DD/YYYY], written with two and four digits for a valid
    date, is not read by the full format and is read by the date-only
    format as that date at midnight, a naive timestamp; so is it by the
    normaliser.  From the year 1000 on this text is what [strftime]
    writes for the date-only format. *)
Theorem date_only_text_reads_as_midnight :
  forall w : datetime,
    valid_datetime w = true ->
    strptime (date_text w) FULL = None
    /\ strptime (date_text w) DATE_ONLY = Some (midnight w)
    /\ _parse_to_datetime (Raw (JStr (date_text w))) = Return (midnight w)
    /\ (1000 <= year w -> strftime w DATE_ONLY = date_text w).
Proof.
  intros w Hv.
  pose proof (valid_datetime_fields w Hv) as (HY1 & HY & Hm & Hd & _).
  pose proof (days_in_month_le (year w) (month w)) as Hdim.
  assert (Hd31 : 1 <= day w <= 31) by lia.
  assert (Hfull : strptime (date_text w) FULL = None).
  { unfold strptime.
    change (compile false FULL)
      with (Some [Capture Fm; Char "/"; Capture Fd; Char "/"; Capture FY; Blanks;
                  Capture FH; Char ":"; Capture FM; Char ":"; Capture FS]).
    rewrite date_only_shape.
    rewrite (run_month_then "/" _ _ _ _ eq_refl Hm).
    rewrite (run_day_then "/" _ _ _ _ eq_refl Hd31).
    rewrite (run_year_exactly _ _ _ _ HY). reflexivity. }
  assert (Hdate : strptime (date_text w) DATE_ONLY = Some (midnight w)).
  { unfold strptime.
    change (compile false DATE_ONLY)
      with (Some [Capture Fm; Char "/"; Capture Fd; Char "/"; Capture FY]).
    rewrite date_only_shape.
    rewrite (run_month_then "/" _ _ _ _ eq_refl Hm).
    rewrite (run_day_then "/" _ _ _ _ eq_refl Hd31).
    rewrite (run_year_exactly _ _ _ _ HY).
    cbn [run]. unfold datetime_of.
    change {| year := cY _; month := cm _; day := cd _; hour := cH _;
              minute := cM _; second := cS _; microsecond := 0; tzinfo := None |}
      with (midnight w).
    now rewrite (valid_midnight w Hv). }
  split; [exact Hfull|]. split; [exact Hdate|]. split.
  - unfold _parse_to_datetime, parse_date_string. now rewrite Hfull, Hdate.
  - intros Hfour. rewrite date_only_shape, <- (decimal_four (year w) Hfour HY).
    reflexivity.
Qed.

Lemma date_only_witness :
  _parse_to_datetime (Raw (JStr "01/15/2024"))
  = Return {| year := 2024; month := 1; day := 15;
              hour := 0; minute := 0; second := 0; microsecond := 0;
              tzinfo := None |}.
Proof.
  exact (proj1 (proj2 (proj2
           (date_only_text_reads_as_midnight Samples.watermark eq_refl)))).
Defined.




Lemma digit_char_inj (a b : nat) :
  a < 10 -> b < 10 -> digit_char a = digit_char b -> a = b.
Proof.
  intros Ha Hb Heq.
  destruct (digit_char_facts a Ha) as (_ & _ & Va).
  destruct (digit_char_facts b Hb) as (_ & _ & Vb).
  rewrite Heq in Va. congruence.
Qed.

Lemma pad2_then_inj (n1 n2 : nat) (r1 r2 : string) :
  n1 < 100 -> n2 < 100 ->
  pad2 n1 ++ r1 = pad2 n2 ++ r2 -> n1 = n2 /\ r1 = r2.
Proof.
  intros H1 H2. unfold pad2. cbn [append].
  pose proof (Nat.div_mod_eq n1 10) as E1. pose proof (Nat.div_mod_eq n2 10) as E2.
  assert (A1 : n1 / 10 < 10) by (apply Nat.Div0.div_lt_upper_bound; lia).
  assert (A2 : n2 / 10 < 10) by (apply Nat.Div0.div_lt_upper_bound; lia).
  pose proof (Nat.mod_upper_bound n1 10) as B1.
  pose proof (Nat.mod_upper_bound n2 10) as B2.
  generalize dependent (n1 / 10). generalize dependent (n1 mod 10).
  generalize dependent (n2 / 10). generalize dependent (n2 mod 10).
  intros b2 B2 a2 E2 A2 b1 B1 a1 E1 A1 Heq.
  injection Heq as Ha Hb Hr. split; [|exact Hr].
  apply digit_char_inj in Ha; [|lia..].
  apply digit_char_inj in Hb; [|lia..]. lia.
Qed.

Lemma read_decimal_digits (ds : list nat) :
  Forall (fun d => d < 10) ds ->
  forall (acc : nat) (r : string),
    read_decimal acc (string_of_digits ds ++ String " " r)
    = (number_of_digits acc ds, String " " r).
Proof.
  induction 1 as [|d ds Hd Hds IH]; intros acc r.
  - reflexivity.
  - destruct (digit_char_facts d Hd) as (Cd & _ & Vd).
    cbn [string_of_digits fold_right append read_decimal].
    rewrite Cd, Vd. apply IH.
Qed.

Lemma decimal_then_inj (y1 y2 : nat) (r1 r2 : string) :
  (Z.of_nat y1 < 10000)%Z -> (Z.of_nat y2 < 10000)%Z ->
  decimal y1 ++ String " " r1 = decimal y2 ++ String " " r2 ->
  y1 = y2 /\ r1 = r2.
Proof.
  intros H1 H2 Heq.
  destruct (decimal_digits y1 H1) as (ds1 & F1 & D1 & N1 & _).
  destruct (decimal_digits y2 H2) as (ds2 & F2 & D2 & N2 & _).
  apply (f_equal (read_decimal 0)) in Heq.
  rewrite D1, D2, (read_decimal_digits ds1 F1), (read_decimal_digits ds2 F2) in Heq.
  injection Heq as Hn Hr. split; congruence.
Qed.

Lemma after_char_inj (c : ascii) (r1 r2 : string) :
  String c r1 = String c r2 -> r1 = r2.
Proof. congruence. Qed.

(** X16.  Two valid watermarks are written as the same filter text
    exactly when they agree in year, month, day, hour, minute and
    second, whatever their microseconds and time zones. *)
Theorem filter_text_determines_the_second :
  forall w1 w2 : datetime,
    valid_datetime w1 = true ->
    valid_datetime w2 = true ->
    (_format_date_for_intacct w1 = _format_date_for_intacct w2
     <-> without_tzinfo (truncate_to_second w1)
         = without_tzinfo (truncate_to_second w2)).
Proof.
  intros w1 w2 H1 H2.
  pose proof (valid_datetime_fields w1 H1) as (_ & Y1 & m1 & d1 & h1 & mi1 & s1).
  pose proof (valid_datetime_fields w2 H2) as (_ & Y2 & m2 & d2 & h2 & mi2 & s2).
  pose proof (days_in_month_le (year w1) (month w1)).
  pose proof (days_in_month_le (year w2) (month w2)).
  unfold without_tzinfo, truncate_to_second.
  cbn [year month day hour minute second microsecond tzinfo].
  rewrite !format_shape. split.
  - intros Heq.
    apply pad2_then_inj in Heq; [|lia..]. destruct Heq as [Hm Heq]. apply after_char_inj in Heq.
    apply pad2_then_inj in Heq; [|lia..]. destruct Heq as [Hd Heq]. apply after_char_inj in Heq.
    apply decimal_then_inj in Heq; [|assumption..]. destruct Heq as [Hy Heq].
    apply pad2_then_inj in Heq; [|lia..]. destruct Heq as [Hh Heq]. apply after_char_inj in Heq.
    apply pad2_then_inj in Heq; [|lia..]. destruct Heq as [Hmi Heq]. apply after_char_inj in Heq.
    apply pad2_then_inj in Heq; [|lia..]. destruct Heq as [Hs _].
    now rewrite Hm, Hd, Hy, Hh, Hmi, Hs.
  - intros [= Hy Hm Hd Hh Hmi Hs]. now rewrite Hy, Hm, Hd, Hh, Hmi, Hs.
Qed.

Lemma filter_text_witness :
  _format_date_for_intacct Samples.watermark
  = _format_date_for_intacct (truncate_to_second Samples.watermark).
Proof.
  apply (filter_text_determines_the_second Samples.watermark
           (truncate_to_second Samples.watermark) eq_refl eq_refl).
  reflexivity.
Defined.

(** * The two formats never read the same string *)

Lemma flat_map_nested {A B C : Type} (g : B -> list C) (h : A -> list B) (l : list A) :
  flat_map g (flat_map h l) = flat_map (fun a => flat_map g (h a)) l.
Proof.
  induction l as [|a l IH]; simpl; [reflexivity|].
  now rewrite flat_map_app, IH.
Qed.

(** Matching a concatenation: match the first part, then the second from
    where the first stopped. *)
Lemma run_app (a b : list item) :
  forall (s : string) (acc : captures),
    run (a ++ b)%list s acc
    = flat_map (fun p => run b (snd p) (fst p)) (run a s acc).
Proof.
  induction a as [|[f|c|] a IH]; intros s acc.
  - simpl. now rewrite app_nil_r.
  - cbn [app run]. rewrite flat_map_nested. apply flat_map_ext. intros cls.
    destruct (match_classes cls s) as [[matched rest]|]; [apply IH | reflexivity].
  - cbn [app run]. destruct s as [|x rest]; [reflexivity|].
    destruct (Ascii.eqb x c); [apply IH | reflexivity].
  - cbn [app run]. rewrite flat_map_nested. apply flat_map_ext. intros rest. apply IH.
Qed.

Section Remainders.

Variables (f : field) (items : list item) (acc : captures) (x : captures * string).

Let continue (matched : option (string * string)) : list (captures * string) :=
  match matched with
  | Some (m, rest) => run (Char "/" :: items) rest (capture f (int_of 0 m) acc)
  | None => []
  end.

Lemma one_class_then_slash (lo hi : ascii) (s : string) :
  in_class lo hi "/" = false ->
  In x (continue (match_classes [(lo, hi)] s)) ->
  exists n, In x (run items (after_slash s) (capture f n acc)).
Proof.
  intros Hlo. unfold continue.
  destruct s as [|c1 [|c2 s]]; cbn [match_classes run]; try contradiction;
    destruct (in_class lo hi c1) eqn:E1; try contradiction.
  destruct (Ascii.eqb_spec c2 "/") as [->|]; [|contradiction].
  intros Hx. eexists. cbn [after_slash].
  destruct (Ascii.eqb_spec c1 "/") as [->|]; [congruence|].
  rewrite Ascii.eqb_refl. exact Hx.
Qed.

Lemma two_classes_then_slash (lo1 hi1 lo2 hi2 : ascii) (s : string) :
  in_class lo1 hi1 "/" = false ->
  in_class lo2 hi2 "/" = false ->
  In x (continue (match_classes [(lo1, hi1); (lo2, hi2)] s)) ->
  exists n, In x (run items (after_slash s) (capture f n acc)).
Proof.
  intros H1 H2. unfold continue.
  destruct s as [|c1 [|c2 [|c3 s]]]; cbn [match_classes run]; try contradiction;
    destruct (in_class lo1 hi1 c1) eqn:E1; try contradiction;
    destruct (in_class lo2 hi2 c2) eqn:E2; try contradiction.
  destruct (Ascii.eqb_spec c3 "/") as [->|]; [|contradiction].
  intros Hx. eexists. cbn [after_slash].
  destruct (Ascii.eqb_spec c1 "/") as [->|]; [congruence|].
  destruct (Ascii.eqb_spec c2 "/") as [->|]; [congruence|].
  rewrite Ascii.eqb_refl. exact Hx.
Qed.

End Remainders.

Lemma month_then_slash (items : list item) (s : string) (acc : captures)
  (x : captures * string) :
  In x (run (Capture Fm :: Char "/" :: items) s acc) ->
  exists n, In x (run items (after_slash s) (capture Fm n acc)).
Proof.
  cbn [run]. intros Hx. apply in_flat_map in Hx. destruct Hx as (cls & Hcls & Hx).
  cbn [alternatives] in Hcls.
  destruct Hcls as [<-|[<-|[<-|[]]]].
  - now apply (two_classes_then_slash Fm items acc x "1" "1" "0" "2" s).
  - now apply (two_classes_then_slash Fm items acc x "0" "0" "1" "9" s).
  - now apply (one_class_then_slash Fm items acc x "1" "9" s).
Qed.

Lemma day_then_slash (items : list item) (s : string) (acc : captures)
  (x : captures * string) :
  In x (run (Capture Fd :: Char "/" :: items) s acc) ->
  exists n, In x (run items (after_slash s) (capture Fd n acc)).
Proof.
  cbn [run]. intros Hx. apply in_flat_map in Hx. destruct Hx as (cls & Hcls & Hx).
  cbn [alternatives] in Hcls.
  destruct Hcls as [<-|[<-|[<-|[<-|[<-|[]]]]]].
  - now apply (two_classes_then_slash Fd items acc x "3" "3" "0" "1" s).
  - now apply (two_classes_then_slash Fd items acc x "1" "2" "0" "9" s).
  - now apply (two_classes_then_slash Fd items acc x "0" "0" "1" "9" s).
  - now apply (one_class_then_slash Fd items acc x "1" "9" s).
  - now apply (two_classes_then_slash Fd items acc x " " " " "1" "9" s).
Qed.

Lemma year_at_the_end (s : string) (acc : captures) (x : captures * string) :
  In x (run [Capture FY] s acc) -> snd x = drop4 s.
Proof.
  cbn [run alternatives flat_map]. rewrite app_nil_r.
  destruct s as [|c1 [|c2 [|c3 [|c4 s]]]]; cbn [match_classes]; try contradiction;
    unfold digit;
    repeat match goal with
           | |- context [in_class ?a ?b ?c] => destruct (in_class a b c)
           end; try contradiction.
  intros [<-|[]]. reflexivity.
Qed.

(** Every way the date part matches stops at the same place. *)
Lemma date_items_remainder (s : string) (acc : captures) (x : captures * string) :
  In x (run DATE_ITEMS s acc) -> snd x = drop4 (after_slash (after_slash s)).
Proof.
  unfold DATE_ITEMS. intros Hx.
  apply month_then_slash in Hx. destruct Hx as [m Hx].
  apply day_then_slash in Hx. destruct Hx as [d Hx].
  now apply year_at_the_end in Hx.
Qed.

Lemma time_items_need_text (acc : captures) : run TIME_ITEMS "" acc = [].
Proof. reflexivity. Qed.

(** X17.  No string is read by both formats, so which of the two a
    timestamp text is tried against first cannot change what the
    normaliser returns. *)
Theorem formats_never_both_match :
  forall s : string, strptime s FULL = None \/ strptime s DATE_ONLY = None.
Proof.
  intros s.
  destruct (strptime s FULL) as [dt|] eqn:Hfull; [right | now left].
  unfold strptime in *.
  change (compile false FULL) with (Some (DATE_ITEMS ++ TIME_ITEMS)%list) in Hfull.
  change (compile false DATE_ONLY) with (Some DATE_ITEMS).
  cbv beta iota in Hfull. cbv beta iota.
  rewrite run_app in Hfull.
  destruct (flat_map _ _) as [|[c rest] t] eqn:Hrun in Hfull; [discriminate|].
  destruct rest; [|discriminate].
  assert (Hin : In (c, "") (flat_map (fun p => run TIME_ITEMS (snd p) (fst p))
                              (run DATE_ITEMS s no_captures)))
    by (rewrite Hrun; now left).
  apply in_flat_map in Hin. destruct Hin as ([c0 r0] & Hp & Hc).
  pose proof (date_items_remainder s no_captures _ Hp) as Hr0. cbn [snd fst] in *.
  assert (Hne : drop4 (after_slash (after_slash s)) <> "").
  { intros He. rewrite Hr0, He, time_items_need_text in Hc. contradiction. }
  destruct (run DATE_ITEMS s no_captures) as [|[c1 r1] t1] eqn:Hdate; [contradiction|].
  assert (Hr1 : r1 = drop4 (after_slash (after_slash s))).
  { apply (date_items_remainder s no_captures (c1, r1)). rewrite Hdate. now left. }
  destruct r1; [congruence | reflexivity].
Qed.

(** * Further properties of [post_process] *)

Lemma normalize_all_null (fields : list string) (r : row) :
  dates_all_null fields r -> normalize fields r = (r, Return tt).
Proof.
  induction fields as [|f fields IH]; intros Hall; [reflexivity|].
  rewrite normalize_step, (Hall f (or_introl eq_refl)).
  destruct (cell_null_dec (Raw JNull)) as [_|Hn]; [|contradiction].
  apply IH. intros g Hg. apply Hall. now right.
Qed.

(** X12.  A record whose declared date fields are all present and null
    (in particular any record of a stream without date fields) is
    returned as it is, and the caller's dict is left as it was. *)
Theorem undated_record_is_returned_unchanged :
  forall (self : stream) (r : row),
    dates_all_null (datetime_fields self) r ->
    post_process self r = (r, Return r).
Proof.
  intros self r Hall. unfold post_process.
  now rewrite (normalize_all_null _ r Hall).
Qed.

Lemma undated_record_witness :
  post_process Samples.customers Cases.undated_row
  = (Cases.undated_row, Return Cases.undated_row).
Proof.
  apply undated_record_is_returned_unchanged.
  intros f [<-|[<-|[]]]; reflexivity.
Defined.

Lemma normalize_stamped (fields : list string) (r : row) :
  (forall g, In g fields ->
             dict_get g r = Some (Raw JNull) \/ exists dt, dict_get g r = Some (Stamp dt)) ->
  (exists f dt, In f fields /\ dict_get f r = Some (Stamp dt)) ->
  normalize fields r = (r, Raise TypeError).
Proof.
  induction fields as [|g0 fields IH]; intros Hall (f & dt & Hin & Hf);
    [contradiction|].
  rewrite normalize_step.
  destruct (Hall g0 (or_introl eq_refl)) as [H0 | [dt0 H0]]; rewrite H0.
  - destruct (cell_null_dec (Raw JNull)) as [_|Hn]; [|contradiction].
    apply IH.
    + intros g Hg. apply Hall. now right.
    + exists f, dt. split; [|exact Hf].
      destruct Hin as [<-|Hin]; [congruence | exact Hin].
  - destruct (cell_null_dec (Stamp dt0)) as [Hn|_]; [discriminate | reflexivity].
Qed.

(** X13.  [post_process] is not idempotent: once it has returned a
    record in which some declared date field held a value, a second pass
    over the result raises [TypeError], since [strptime] is handed a
    [datetime]; that pass leaves the record as it found it. *)
Theorem second_pass_raises_type_error :
  forall (self : stream) (r r' : row) (f : string) (v : cell),
    NoDup (map fst (properties self)) ->
    snd (post_process self r) = Return r' ->
    In f (datetime_fields self) ->
    dict_get f r = Some v ->
    v <> Raw JNull ->
    post_process self r' = (r', Raise TypeError).
Proof.
  intros self r r' f v Hnd Hrun Hin Hf Hv.
  assert (Hfields : NoDup (datetime_fields self)) by now apply NoDup_map_filter.
  rewrite post_process_normalize in Hrun. cbn [snd] in Hrun.
  destruct (normalize (datetime_fields self) r) as [left [u|e]] eqn:Hn;
    cbn [fst snd] in Hrun; [|discriminate].
  injection Hrun as <-.
  destruct (normalize_returns _ Hfields r left u Hn) as [_ Hall].
  unfold post_process. rewrite normalize_stamped; [reflexivity| |].
  - intros g Hg.
    destruct (dict_get g r) as [w|] eqn:Hw.
    + destruct (Hall g w Hw) as [Hdate Hkeep].
      destruct (cell_null_dec w) as [->|Hnn].
      * left. apply Hkeep. now right.
      * right. destruct (Hdate Hg Hnn) as (dt & _ & Hdt). eauto.
    + destruct (normalize_fails _ r g Hg (or_introl Hw)) as [e He].
      rewrite Hn in He. discriminate.
  - destruct (Hall f v Hf) as [Hdate _].
    destruct (Hdate Hin Hv) as (dt & _ & Hdt). eauto.
Qed.

Lemma second_pass_witness :
  snd (post_process Samples.customers
         [("RECORDNO", Raw (JStr "7"));
          ("NAME", Raw (JStr "Acme"));
          ("WHENMODIFIED",
           Stamp {| year := 2024; month := 1; day := 15;
                    hour := 13; minute := 45; second := 0; microsecond := 0;
                    tzinfo := None |});
          ("WHENCREATED", Raw JNull)])
  = Raise TypeError.
Proof.
  assert (Hnd : NoDup (map fst (properties Samples.customers))).
  { repeat constructor; simpl; intuition discriminate. }
  refine (f_equal snd
            (second_pass_raises_type_error Samples.customers Samples.raw_row _
               "WHENMODIFIED" (Raw (JStr "01/15/2024 13:45:00")) Hnd _ _ _ _)).
  - vm_compute. reflexivity.
  - simpl. auto.
  - reflexivity.
  - discriminate.
Defined.

(** * Further properties of the request builder *)

(** X14.  For a stream that is not reserved the builder fails in three
    ways only: without a starting timestamp, [AttributeError] after the
    bookmark was read; without [sender_id] or without [sender_password]
    in the configuration, [KeyError] naming the missing key, after the
    clock was read and before an identifier is drawn.  Otherwise it
    returns the serialised envelope after the three reads. *)
Theorem builder_failure_modes :
  forall (REP_KEYS : list (string * string)) (GET_BY_DATE_FIELD : string)
         (unparse : pyval -> string) (self : stream) (world : ambient),
    name self <> "audit_history" ->
    let build := prepare_request_payload REP_KEYS GET_BY_DATE_FIELD unparse self world in
    (starting_timestamp world = None ->
     build = ([ReadStartingTimestamp], Raise (AttributeError "strftime")))
    /\ (starting_timestamp world <> None ->
        dict_get "sender_id" (config self) = None ->
        build = ([ReadStartingTimestamp; ReadClock], Raise (KeyError "sender_id")))
    /\ (starting_timestamp world <> None ->
        dict_get "sender_id" (config self) <> None ->
        dict_get "sender_password" (config self) = None ->
        build = ([ReadStartingTimestamp; ReadClock], Raise (KeyError "sender_password")))
    /\ (starting_timestamp world <> None ->
        dict_get "sender_id" (config self) <> None ->
        dict_get "sender_password" (config self) <> None ->
        exists dict_body,
          request_envelope REP_KEYS GET_BY_DATE_FIELD self world
          = ([ReadStartingTimestamp; ReadClock; DrawUuid], Return dict_body)
          /\ build = ([ReadStartingTimestamp; ReadClock; DrawUuid],
                      Return (unparse dict_body))).
Proof.
  intros REP_KEYS GET_BY_DATE_FIELD unparse self world Hn. cbv zeta.
  rewrite (payload_of_envelope _ _ _ _ _ Hn).
  unfold request_envelope, config_item.
  destruct (starting_timestamp world) as [w|].
  - cbn -[_format_date_for_intacct].
    destruct (dict_get "sender_id" (config self)) as [sid|].
    + cbn -[_format_date_for_intacct].
      destruct (dict_get "sender_password" (config self)) as [pw|].
      * cbn -[_format_date_for_intacct].
        repeat split; try discriminate; try congruence.
        intros _ _ _. eexists. split; reflexivity.
      * repeat split; try discriminate; congruence.
    + repeat split; try discriminate; congruence.
  - repeat split; congruence.
Qed.

Lemma builder_failure_witness :
  prepare_request_payload Samples.rep_keys Samples.get_by_date_field Samples.unparse
    {| name := "customers"; intacct_obj_name := "CUSTOMER"; properties := [];
       config := [("sender_id", "acme")]; session_id := "sess-01" |}
    Samples.first_call
  = ([ReadStartingTimestamp; ReadClock], Raise (KeyError "sender_password")).
Proof.
  assert (Hn : "customers" <> "audit_history") by discriminate.
  destruct (builder_failure_modes Samples.rep_keys Samples.get_by_date_field
              Samples.unparse
              {| name := "customers"; intacct_obj_name := "CUSTOMER"; properties := [];
                 config := [("sender_id", "acme")]; session_id := "sess-01" |}
              Samples.first_call Hn) as (_ & _ & H & _).
  apply H; [discriminate | discriminate | reflexivity].
Defined.

(** X15.  In every envelope the builder produces: the object is the
    remote object name; the selected fields are the schema's property
    names in schema order; the filter and the ordering use one and the
    same replication key (the entry of [REP_KEYS] for the stream, else
    the default field), ascending; the filter value is the formatted
    starting timestamp; the page size is 1000 and the offset 0; session
    id and sender credentials are those of the stream. *)
Theorem query_follows_the_stream :
  forall (REP_KEYS : list (string * string)) (GET_BY_DATE_FIELD : string)
         (self : stream) (world : ambient) (dict_body : pyval),
    snd (request_envelope REP_KEYS GET_BY_DATE_FIELD self world) = Return dict_body ->
    let rep_key :=
      match dict_get (name self) REP_KEYS with
      | Some k => k
      | None => GET_BY_DATE_FIELD
      end in
    pv_at (QUERY ++ ["object"]) dict_body = Some (PStr (intacct_obj_name self))
    /\ pv_at (QUERY ++ ["select"; "field"]) dict_body
       = Some (PList (map PStr (map fst (properties self))))
    /\ pv_at (QUERY ++ ["filter"; "greaterthanorequalto"; "field"]) dict_body
       = Some (PStr rep_key)
    /\ (exists w, starting_timestamp world = Some w
                  /\ pv_at (QUERY ++ ["filter"; "greaterthanorequalto"; "value"]) dict_body
                     = Some (PStr (_format_date_for_intacct w)))
    /\ pv_at (QUERY ++ ["orderby"; "order"; "field"]) dict_body = Some (PStr rep_key)
    /\ pv_at (QUERY ++ ["orderby"; "order"; "ascending"]) dict_body = Some (PDict [])
    /\ pv_at (QUERY ++ ["pagesize"]) dict_body = Some (PInt 1000)
    /\ pv_at (QUERY ++ ["offset"]) dict_body = Some (PInt 0)
    /\ pv_at ["request"; "operation"; "authentication"; "sessionid"] dict_body
       = Some (PStr (session_id self))
    /\ option_map PStr (dict_get "sender_id" (config self))
       = pv_at ["request"; "control"; "senderid"] dict_body
    /\ option_map PStr (dict_get "sender_password" (config self))
       = pv_at ["request"; "control"; "password"] dict_body.
Proof.
  intros REP_KEYS GET_BY_DATE_FIELD self world dict_body. cbv zeta.
  unfold request_envelope, config_item.
  destruct (starting_timestamp world) as [w|]; [|discriminate].
  cbn -[_format_date_for_intacct].
  destruct (dict_get "sender_id" (config self)) as [sid|]; [|discriminate].
  cbn -[_format_date_for_intacct].
  destruct (dict_get "sender_password" (config self)) as [pw|]; [|discriminate].
  cbn -[_format_date_for_intacct].
  intros [= <-].
  repeat match goal with |- _ /\ _ => split end; try reflexivity.
  exists w. split; reflexivity.
Qed.

Lemma query_witness :
  pv_at (QUERY ++ ["select"; "field"])
    match snd (request_envelope Samples.rep_keys Samples.get_by_date_field
                 Samples.customers Samples.first_call) with
    | Return e => e
    | Raise _ => PDict []
    end
  = Some (PList [PStr "RECORDNO"; PStr "NAME"; PStr "WHENMODIFIED"; PStr "WHENCREATED"]).
Proof.
  destruct (query_follows_the_stream Samples.rep_keys Samples.get_by_date_field
              Samples.customers Samples.first_call _ eq_refl) as (_ & H & _).
  exact H.
Defined.

Lemma selected_fields (REP_KEYS : list (string * string)) (GET_BY_DATE_FIELD : string)
  (self : stream) (world : ambient) (dict_body : pyval) :
  snd (request_envelope REP_KEYS GET_BY_DATE_FIELD self world) = Return dict_body ->
  pv_at (QUERY ++ ["select"; "field"]) dict_body
  = Some (PList (map PStr (map fst (properties self)))).
Proof.
  unfold request_envelope, config_item.
  destruct (starting_timestamp world) as [w|]; [|discriminate].
  cbn -[_format_date_for_intacct].
  destruct (dict_get "sender_id" (config self)) as [sid|]; [|discriminate].
  cbn -[_format_date_for_intacct].
  destruct (dict_get "sender_password" (config self)) as [pw|]; [|discriminate].
  cbn -[_format_date_for_intacct].
  intros [= <-]. reflexivity.
Qed.

(** X18.  Every field [post_process] looks up in a record is a property
    of the schema, and is among the fields every request of the stream
    selects. *)
Theorem date_fields_are_requested :
  forall (REP_KEYS : list (string * string)) (GET_BY_DATE_FIELD : string)
         (self : stream) (world : ambient) (dict_body : pyval) (f : string),
    In f (datetime_fields self) ->
    snd (request_envelope REP_KEYS GET_BY_DATE_FIELD self world) = Return dict_body ->
    In f (map fst (properties self))
    /\ exists selected,
         pv_at (QUERY ++ ["select"; "field"]) dict_body = Some (PList selected)
         /\ In (PStr f) selected.
Proof.
  intros REP_KEYS GET_BY_DATE_FIELD self world dict_body f Hf Hbuilt.
  assert (Hname : In f (map fst (properties self))).
  { apply datetime_fields_spec in Hf. destruct Hf as (t & Hin & _).
    apply in_map_iff. exists (f, t). auto. }
  split; [exact Hname|].
  eexists. split; [exact (selected_fields _ _ _ _ _ Hbuilt)|].
  now apply in_map.
Qed.

Lemma date_fields_witness :
  In "WHENMODIFIED" (map fst (properties Samples.customers)).
Proof.
  assert (Hf : In "WHENMODIFIED" (datetime_fields Samples.customers))
    by (simpl; auto).
  exact (proj1 (date_fields_are_requested Samples.rep_keys Samples.get_by_date_field
                  Samples.customers Samples.first_call _ "WHENMODIFIED" Hf eq_refl)).
Defined.
